(** * scale/users.py : the per-user provisioner of the scale tool

    A shallow embedding of class [User] of [src/scale/users.py].

    The methods of [User] are sequences of calls into collaborators that
    live outside the file (the keystone session of the tenant, the neutron
    and nova client constructors, [base_compute.KeyPair],
    [base_network.Router], [base_network.find_external_network]).  Each
    such call is an element of [call]; what a call answers is decided by
    a handler over an abstract world, so every theorem of the [Provisioner]
    section holds for every behaviour of the collaborators.  A method is a
    computation in a state-and-exception monad whose state carries
      - [self]  : the attributes of the [User] object, mutated in place,
      - [world] : the state of everything outside the object,
      - [trace] : the external calls issued so far, oldest first,
      - [log]   : the lines handed to [LOG].
    An exception leaves the state as it was when it was raised, which is
    what a caller that catches it (and then runs [delete_resources]) sees.

    [base_network.Router(self)] keeps a reference to the object.  The
    collaborators are taken to read the object at most: no call assigns
    an attribute of [self], so [self] changes only where the file assigns
    it. *)

From Stdlib Require Import ZArith List String Ascii Bool Lia.
From Stdlib Require Import Decimal DecimalString.
From Stdlib Require DecimalFacts DecimalNat.
Import ListNotations.
Open Scope string_scope.
Open Scope list_scope.

Set Implicit Arguments.

(** ** Values exchanged with the collaborators *)

(** A user resource of the identity service: [user.id], [user.name]. *)
Record KsUser := { ks_id : string; ks_name : string }.

(** A role resource of the identity service: [role.name]. *)
Record KsRole := { role_id : string; role_name : string }.

(** Handles on objects owned by the collaborators. *)
Definition NeutronClient := nat.
Definition NovaClient := nat.
Definition KeyPair := nat.
Definition Router := nat.
Definition Network := string.
Definition Instance := string.

(** [tenant.kloud.scale_cfg].  Its class is not part of the file; the
    fields are the four ways the file reads it:
    [config_scale.public_key_file] (tested for truth),
    [config_scale['use_floatingip']] (tested for truth),
    ['redis_server' in config_scale] (key presence, whatever the value),
    [config_scale['routers_per_user']] (handed to [range]).
    The two subscripted keys are required by the code and are total
    fields here. *)
Record ScaleCfg := {
  public_key_file : option string;
  use_floatingip : bool;
  redis_server : option string;
  routers_per_user : Z
}.

(** [tenant.kloud]: [auth_url] and [scale_cfg]; [kloud.keystone] is the
    identity-service session, reached through the [call]s below. *)
Record Kloud := { auth_url : string; scale_cfg : ScaleCfg }.

Record Tenant := { tenant_id : string; tenant_name : string; kloud : Kloud }.

(** ** Exceptions *)

Inductive exn :=
| Conflict (http_status : Z) (message : string)
    (* keystone_exception.Conflict *)
| CollaboratorError (kind : string)
    (* any other exception raised inside a collaborator *)
| Exception (message : string)
    (* the plain [Exception] of line 100 *)
| AttributeError (attribute : string).
    (* reading an attribute the object does not have yet *)

Inductive outcome (A : Type) :=
| Ok (a : A)
| Raise (e : exn).
Arguments Ok {A} a.
Arguments Raise {A} e.

(** ** External calls *)

(** [keystone.users.delete] is given the user resource on line 95 and the
    stored id on line 114. *)
Inductive delete_target :=
| ByResource (user : KsUser)
| ById (user_id : option string).

(** One constructor per call that leaves the file, indexed by the type of
    what the call returns. *)
Inductive call : Type -> Type :=
| users_create (name password email tenant_id : string) : call KsUser
| users_list : call (list KsUser)
| users_delete (target : delete_target) : call unit
| roles_list : call (list KsRole)
| roles_add_user_role (user : KsUser) (role : option KsRole)
                      (tenant_id : string) : call unit
| neutronclient_Client (username password auth_url tenant_name : string)
    : call NeutronClient
| novaclient_Client (username api_key auth_url project_id : string)
                    (version : Z) : call NovaClient
| KeyPair_new (nova : option NovaClient) : call KeyPair
| add_public_key (kp : KeyPair) (name : string) (file : option string)
    : call unit
| remove_public_key (kp : KeyPair) : call unit
| find_external_network (neutron : option NeutronClient)
    : call (option Network)
| Router_new (owner : string) : call Router
| create_router (r : Router) (name : string) (ext : option Network)
    : call unit
| create_network_resources (r : Router) (cfg : ScaleCfg) : call unit
| delete_router (r : Router) : call unit
| router_get_first_network (r : Router) : call (option Network)
| router_get_all_instances (r : Router) : call (list Instance).

Inductive event := Ev : forall R, call R -> event.
Arguments Ev {R} c.

(** ** The object *)

(** An attribute assigned only after a statement that can raise is either
    not there yet ([Unset]) or bound to a value. *)
Inductive attr (A : Type) :=
| Unset
| Bound (a : A).
Arguments Unset {A}.
Arguments Bound {A} a.

(** The attributes of a [User].  Lines 39-45 are plain assignments that
    cannot raise, so an object on which [__init__] was entered has the
    first six; [admin_user], [key_pair] and [key_name] are assigned on
    lines 46-49, from the call of [_get_user] on. *)
Record User := {
  user_name : string;
  tenant : Tenant;
  user_id : option string;
  router_list : list Router;
  neutron_client : option NeutronClient;
  nova_client : option NovaClient;
  admin_user : attr KsUser;
  key_pair : attr (option KeyPair);
  key_name : attr (option string)
}.

Inductive level := INFO | WARN.

(** [str(router_count)] for a count of [range]. *)
Definition str (n : nat) : string := NilZero.string_of_uint (Nat.to_uint n).

(** The truth value Python gives a string-or-None. *)
Definition truthy (v : option string) : bool :=
  match v with
  | None => false
  | Some s => negb (String.eqb s "")
  end.

(** ['key' in config]. *)
Definition has_key {A : Type} (v : option A) : bool :=
  match v with
  | None => false
  | Some _ => true
  end.

Section Provisioner.

(** The world outside the object and the answer of every call in it. *)
Variable W : Type.
Variable handle : forall R, call R -> W -> W * outcome R.

Record State := {
  self : User;
  world : W;
  trace : list event;
  log : list (level * string)
}.

Definition M (A : Type) : Type := State -> State * outcome A.

Definition ret {A} (a : A) : M A := fun s => (s, Ok a).

Definition bind {A B} (m : M A) (k : A -> M B) : M B :=
  fun s => match m s with
           | (s', Ok a) => k a s'
           | (s', Raise e) => (s', Raise e)
           end.

Definition raise {A} (e : exn) : M A := fun s => (s, Raise e).

(** [try: m  except: h] where [h] decides by itself which exceptions it
    lets through. *)
Definition try_except {A} (m : M A) (h : exn -> M A) : M A :=
  fun s => match m s with
           | (s', Ok a) => (s', Ok a)
           | (s', Raise e) => h e s'
           end.

Notation "x <- m ;; k" := (bind m (fun x => k))
  (at level 61, m at next level, right associativity).
Notation "m ;;; k" := (bind m (fun _ => k))
  (at level 61, right associativity).

(** Issue an external call: the world answers, the trace grows. *)
Definition perform {R} (c : call R) : M R :=
  fun s => let (w', r) := handle c (world s) in
           ({| self := self s; world := w';
               trace := trace s ++ [Ev c]; log := log s |}, r).

Definition LOG (l : level) (msg : string) : M unit :=
  fun s => ({| self := self s; world := world s;
               trace := trace s; log := log s ++ [(l, msg)] |}, Ok tt).

Definition get {A} (field : User -> A) : M A := fun s => (s, Ok (field (self s))).

Definition getattr {A} (attribute : string) (field : User -> attr A) : M A :=
  fun s => match field (self s) with
           | Bound a => (s, Ok a)
           | Unset => (s, Raise (AttributeError attribute))
           end.

Definition update (f : User -> User) : M unit :=
  fun s => ({| self := f (self s); world := world s;
               trace := trace s; log := log s |}, Ok tt).

Definition set_user_id v u :=
  {| user_name := user_name u; tenant := tenant u; user_id := v;
     router_list := router_list u; neutron_client := neutron_client u;
     nova_client := nova_client u; admin_user := admin_user u;
     key_pair := key_pair u; key_name := key_name u |}.
Definition set_router_list v u :=
  {| user_name := user_name u; tenant := tenant u; user_id := user_id u;
     router_list := v; neutron_client := neutron_client u;
     nova_client := nova_client u; admin_user := admin_user u;
     key_pair := key_pair u; key_name := key_name u |}.
Definition set_neutron_client v u :=
  {| user_name := user_name u; tenant := tenant u; user_id := user_id u;
     router_list := router_list u; neutron_client := v;
     nova_client := nova_client u; admin_user := admin_user u;
     key_pair := key_pair u; key_name := key_name u |}.
Definition set_nova_client v u :=
  {| user_name := user_name u; tenant := tenant u; user_id := user_id u;
     router_list := router_list u; neutron_client := neutron_client u;
     nova_client := v; admin_user := admin_user u;
     key_pair := key_pair u; key_name := key_name u |}.
Definition set_admin_user v u :=
  {| user_name := user_name u; tenant := tenant u; user_id := user_id u;
     router_list := router_list u; neutron_client := neutron_client u;
     nova_client := nova_client u; admin_user := v;
     key_pair := key_pair u; key_name := key_name u |}.
Definition set_key_pair v u :=
  {| user_name := user_name u; tenant := tenant u; user_id := user_id u;
     router_list := router_list u; neutron_client := neutron_client u;
     nova_client := nova_client u; admin_user := admin_user u;
     key_pair := v; key_name := key_name u |}.
Definition set_key_name v u :=
  {| user_name := user_name u; tenant := tenant u; user_id := user_id u;
     router_list := router_list u; neutron_client := neutron_client u;
     nova_client := nova_client u; admin_user := admin_user u;
     key_pair := key_pair u; key_name := v |}.

(** ** [User._create_user], lines 65-70 *)
Definition _create_user : M KsUser :=
  name <- get user_name ;;
  LOG INFO ("Creating user: " ++ name) ;;;
  t <- get tenant ;;
  perform (users_create name name "kloudbuster@localhost" (tenant_id t)).

(** The [for] of lines 91-97.  [Some user] is the [return user] of line
    97; [None] is the loop running out of accounts. *)
Fixpoint stale_user_loop (users_list : list KsUser) : M (option KsUser) :=
  match users_list with
  | [] => ret None
  | user :: rest =>
      name <- get user_name ;;
      if String.eqb (ks_name user) name then
        LOG INFO ("Deleting stale user with name: " ++ name) ;;;
        perform (users_delete (ByResource user)) ;;;
        user' <- _create_user ;;
        ret (Some user')
      else stale_user_loop rest
  end.

(** ** [User._get_user], lines 72-100 *)
Definition _get_user : M KsUser :=
  returned <-
    try_except
      (user <- _create_user ;; ret (Some user))
      (fun exc =>
         match exc with
         | Conflict http_status _ =>
             if negb (http_status =? 409)%Z then raise exc
             else
               name <- get user_name ;;
               LOG WARN ("User creation failed due to stale user with same name: "
                         ++ name) ;;;
               users_list <- perform users_list ;;
               stale_user_loop users_list
         | _ => raise exc
         end) ;;
  match returned with
  | Some user => ret user
  | None =>
      name <- get user_name ;;
      raise (Exception ("Cannot find stale user:" ++ name))
  end.

(** Lines 39-45: the attributes the object has before [_get_user] is
    called. *)
Definition allocate (user_name : string) (tenant : Tenant) : User :=
  {| user_name := user_name; tenant := tenant; user_id := None;
     router_list := []; neutron_client := None; nova_client := None;
     admin_user := Unset; key_pair := Unset; key_name := Unset |}.

(** The [for] of lines 56-59, which stops at the first role of that
    name. *)
Fixpoint role_loop (roles : list KsRole) (user_role : string)
                   (current_role : option KsRole) : option KsRole :=
  match roles with
  | [] => current_role
  | role :: rest =>
      if String.eqb (role_name role) user_role then Some role
      else role_loop rest user_role current_role
  end.

(** Lines 55-63: look the role up, bind it, store the id. *)
Definition bind_role (tenant : Tenant) (user_role : string) : M unit :=
  roles <- perform roles_list ;;
  let current_role := role_loop roles user_role None in
  admin <- getattr "admin_user" admin_user ;;
  perform (roles_add_user_role admin current_role (tenant_id tenant)) ;;;
  admin' <- getattr "admin_user" admin_user ;;
  update (set_user_id (Some (ks_id admin'))).

(** ** [User.__init__], lines 31-63

    The object handed to [__init__] has no attribute at all; lines 39-45
    give it the six of [allocate], so whatever [self] held before is
    replaced as a whole. *)
Definition __init__ (user_name : string) (tenant : Tenant)
                    (user_role : string) : M unit :=
  update (fun _ => allocate user_name tenant) ;;;
  admin <- _get_user ;;
  update (set_admin_user (Bound admin)) ;;;
  update (set_key_pair (Bound None)) ;;;
  update (set_key_name (Bound None)) ;;;
  bind_role tenant user_role.

(** A [for x in l: body] whose body neither breaks nor returns. *)
Fixpoint for_each {A} (l : list A) (body : A -> M unit) : M unit :=
  match l with
  | [] => ret tt
  | x :: rest => body x ;;; for_each rest body
  end.

(** ** [User.delete_resources], lines 102-114

    [if self.key_pair:] is the truth value of [None] or of a [KeyPair]
    object, which is true for an object. *)
Definition delete_resources : M unit :=
  name <- get user_name ;;
  LOG INFO ("Deleting all user resources for user " ++ name) ;;;
  kp <- getattr "key_pair" key_pair ;;
  match kp with
  | Some k => perform (remove_public_key k)
  | None => ret tt
  end ;;;
  routers <- get router_list ;;
  for_each routers (fun router => perform (delete_router router)) ;;;
  uid <- get user_id ;;
  perform (users_delete (ById uid)).

(** Lines 149-155: does the router need the external network? *)
Definition needs_external (config_scale : ScaleCfg) : bool :=
  use_floatingip config_scale || has_key (redis_server config_scale).

(** Lines 160-166: the body of the router loop. *)
Definition create_one_router (config_scale : ScaleCfg)
    (external_network : option Network) (router_count : nat) : M unit :=
  owner <- get user_name ;;
  router_instance <- perform (Router_new owner) ;;
  routers <- get router_list ;;
  update (set_router_list (routers ++ [router_instance])) ;;;
  name <- get user_name ;;
  let router_name := (name ++ "-R" ++ str router_count)%string in
  perform (create_router router_instance router_name external_network) ;;;
  perform (create_network_resources router_instance config_scale).

(** Lines 122-155: the two clients, the key pair, the external network.
    Returns the value of the local [external_network]. *)
Definition create_resources_setup : M (option Network) :=
  name <- get user_name ;;
  t <- get tenant ;;
  nc <- perform (neutronclient_Client name name (auth_url (kloud t))
                                      (tenant_name t)) ;;
  update (set_neutron_client (Some nc)) ;;;
  nv <- perform (novaclient_Client name name (auth_url (kloud t))
                                   (tenant_name t) 2) ;;
  update (set_nova_client (Some nv)) ;;;
  let config_scale := scale_cfg (kloud t) in
  (if truthy (public_key_file config_scale) then
     nova <- get nova_client ;;
     kp <- perform (KeyPair_new nova) ;;
     update (set_key_pair (Bound (Some kp))) ;;;
     update (set_key_name (Bound (Some (name ++ "-K")%string))) ;;;
     perform (add_public_key kp (name ++ "-K") (public_key_file config_scale))
   else ret tt) ;;;
  if needs_external config_scale then
    neutron <- get neutron_client ;;
    perform (find_external_network neutron)
  else ret None.

(** Lines 157-166: the router loop. *)
Definition create_routers (config_scale : ScaleCfg)
    (external_network : option Network) (counts : list nat) : M unit :=
  for_each counts (create_one_router config_scale external_network).

(** ** [User.create_resources], lines 116-166 *)
Definition create_resources : M unit :=
  external_network <- create_resources_setup ;;
  name <- get user_name ;;
  LOG INFO ("Creating routers and networks for user " ++ name) ;;;
  t <- get tenant ;;
  let config_scale := scale_cfg (kloud t) in
  create_routers config_scale external_network
                 (seq 0 (Z.to_nat (routers_per_user config_scale))).

(** ** [User.get_first_network], lines 168-171 *)
Definition get_first_network : M (option Network) :=
  routers <- get router_list ;;
  match routers with
  | router :: _ => perform (router_get_first_network router)
  | [] => ret None
  end.

(** The [for] of lines 175-176 over the local [all_instances]. *)
Fixpoint extend_loop (routers : list Router) (all_instances : list Instance)
    : M (list Instance) :=
  match routers with
  | [] => ret all_instances
  | router :: rest =>
      got <- perform (router_get_all_instances router) ;;
      extend_loop rest (all_instances ++ got)
  end.

(** ** [User.get_all_instances], lines 173-177 *)
Definition get_all_instances : M (list Instance) :=
  routers <- get router_list ;;
  extend_loop routers [].

End Provisioner.

Arguments State W : clear implicits.
Arguments M W A : clear implicits.

(** ** A test double of the cloud

    A small executable cloud against which the methods can be run: an
    identity service with accounts and roles, counters for the handles it
    gives out, and switches for the failures the examples need. *)
Record Cloud := {
  accounts : list KsUser;         (* what [users.list()] shows *)
  hidden_names : list string;     (* names refused with 409 though not listed *)
  roles : list KsRole;
  identity_down : bool;           (* [users.create] raises a 503 *)
  broken_routers : list string;   (* router names [create_router] refuses *)
  external : option Network;
  next_handle : nat
}.

Definition mem (x : string) (l : list string) : bool :=
  existsb (String.eqb x) l.

Definition with_accounts (l : list KsUser) (n : nat) (c : Cloud) : Cloud :=
  {| accounts := l; hidden_names := hidden_names c; roles := roles c;
     identity_down := identity_down c; broken_routers := broken_routers c;
     external := external c; next_handle := n |}.

Definition fresh_handle (c : Cloud) : Cloud * outcome nat :=
  (with_accounts (accounts c) (S (next_handle c)) c, Ok (next_handle c)).

Definition drop_account (target : delete_target) (l : list KsUser)
    : list KsUser :=
  match target with
  | ByResource user =>
      filter (fun a => negb (String.eqb (ks_id a) (ks_id user))) l
  | ById (Some i) => filter (fun a => negb (String.eqb (ks_id a) i)) l
  | ById None => l
  end.

Definition cloud (R : Type) (c : call R) (w : Cloud) : Cloud * outcome R :=
  match c in call R return Cloud * outcome R with
  | users_create name _ _ _ =>
      if identity_down w then (w, Raise (CollaboratorError "ServiceUnavailable"))
      else if mem name (map ks_name (accounts w)) || mem name (hidden_names w)
      then (w, Raise (Conflict 409 "Duplicate Entry"))
      else
        let account := {| ks_id := "id-" ++ str (next_handle w);
                          ks_name := name |} in
        (with_accounts (accounts w ++ [account]) (S (next_handle w)) w,
         Ok account)
  | users_list => (w, Ok (accounts w))
  | users_delete target =>
      (with_accounts (drop_account target (accounts w)) (next_handle w) w,
       Ok tt)
  | roles_list => (w, Ok (roles w))
  | roles_add_user_role _ _ _ => (w, Ok tt)
  | neutronclient_Client _ _ _ _ => fresh_handle w
  | novaclient_Client _ _ _ _ _ => fresh_handle w
  | KeyPair_new _ => fresh_handle w
  | add_public_key _ _ _ => (w, Ok tt)
  | remove_public_key _ => (w, Ok tt)
  | find_external_network _ => (w, Ok (external w))
  | Router_new _ => fresh_handle w
  | create_router _ name _ =>
      if mem name (broken_routers w)
      then (w, Raise (CollaboratorError "NeutronClientException"))
      else (w, Ok tt)
  | create_network_resources _ _ => (w, Ok tt)
  | delete_router _ => (w, Ok tt)
  | router_get_first_network r => (w, Ok (Some ("net-" ++ str r)%string))
  | router_get_all_instances r =>
      (w, Ok [("vm-" ++ str r ++ "-0")%string; ("vm-" ++ str r ++ "-1")%string])
  end.

Definition admin_role : KsRole := {| role_id := "r1"; role_name := "admin" |}.
Definition member_role : KsRole := {| role_id := "r2"; role_name := "Member" |}.

Definition empty_cloud : Cloud :=
  {| accounts := []; hidden_names := []; roles := [member_role; admin_role];
     identity_down := false; broken_routers := []; external := Some "ext-net";
     next_handle := 0 |}.

Definition plain_cfg (n : Z) : ScaleCfg :=
  {| public_key_file := None; use_floatingip := false;
     redis_server := None; routers_per_user := n |}.

Definition tenant_of (cfg : ScaleCfg) : Tenant :=
  {| tenant_id := "t-42"; tenant_name := "KBc-T0";
     kloud := {| auth_url := "http://keystone:5000/v2.0"; scale_cfg := cfg |} |}.

Definition alice_tenant : Tenant := tenant_of (plain_cfg 2).

Definition old_alice : KsUser := {| ks_id := "old"; ks_name := "alice" |}.

(** A cloud where a past run left an account "alice" behind. *)
Definition stale_cloud : Cloud := with_accounts [old_alice] 7 empty_cloud.

(** A cloud that refuses the name "alice" and does not list it. *)
Definition shadow_cloud : Cloud :=
  {| accounts := []; hidden_names := ["alice"];
     roles := [member_role; admin_role]; identity_down := false;
     broken_routers := []; external := Some "ext-net"; next_handle := 0 |}.

(** A cloud whose identity service is out of order. *)
Definition down_cloud : Cloud :=
  {| accounts := []; hidden_names := []; roles := [member_role; admin_role];
     identity_down := true; broken_routers := []; external := Some "ext-net";
     next_handle := 0 |}.

(** A cloud that cannot create the router "alice-R1". *)
Definition broken_cloud : Cloud :=
  {| accounts := []; hidden_names := []; roles := [member_role; admin_role];
     identity_down := false; broken_routers := ["alice-R1"];
     external := Some "ext-net"; next_handle := 0 |}.

(** A state before any call, on a given cloud.  [__init__] overwrites
    [self], so the object in it only fills the field. *)
Definition boot (w : Cloud) : State Cloud :=
  {| self := allocate "" (tenant_of (plain_cfg 0)); world := w;
     trace := []; log := [] |}.

(** "alice" constructed on a cloud, with [n] routers to make. *)
Definition alice_on (w : Cloud) (n : Z) : State Cloud * outcome unit :=
  __init__ cloud "alice" (tenant_of (plain_cfg n)) "admin" (boot w).

(** The state "alice" is in once constructed and given her two routers
    on the empty cloud. *)
Definition alice_ready : State Cloud :=
  Eval vm_compute in fst (create_resources cloud (fst (alice_on empty_cloud 2))).

(** "alice" constructed on the broken cloud, three routers to make, and
    the state in which her [create_resources] enters the router loop. *)
Definition alice_stalled : State Cloud :=
  Eval vm_compute in fst (alice_on broken_cloud 3).

Definition alice_stalled_setup : State Cloud :=
  Eval vm_compute in fst (create_resources_setup cloud alice_stalled).

(** The test double with faults switched on: the calls named in [Faults]
    raise, every other call is answered by [cloud]. *)
Record Faults := {
  refuse_binding : bool;             (* [roles.add_user_role] raises *)
  refuse_router_at : option nat;     (* [Router(self)] raises at this handle *)
  refuse_key_registration : bool;    (* [add_public_key] raises *)
  refuse_delete : list Router;       (* [delete_router] raises for these *)
  refuse_instances : list Router     (* [get_all_instances] raises for these *)
}.

Definition no_fault : Faults :=
  {| refuse_binding := false; refuse_router_at := None;
     refuse_key_registration := false; refuse_delete := [];
     refuse_instances := [] |}.

Definition memn (x : nat) (l : list nat) : bool := existsb (Nat.eqb x) l.

Definition faulty (f : Faults) (R : Type) (c : call R) (w : Cloud)
    : Cloud * outcome R :=
  match c in call R return Cloud * outcome R with
  | roles_add_user_role u r t =>
      if refuse_binding f then (w, Raise (CollaboratorError "Forbidden"))
      else cloud (roles_add_user_role u r t) w
  | Router_new owner =>
      match refuse_router_at f with
      | Some n =>
          if Nat.eqb n (next_handle w)
          then (w, Raise (CollaboratorError "QuotaExceeded"))
          else cloud (Router_new owner) w
      | None => cloud (Router_new owner) w
      end
  | add_public_key kp n file =>
      if refuse_key_registration f
      then (w, Raise (CollaboratorError "BadRequest"))
      else cloud (add_public_key kp n file) w
  | delete_router r =>
      if memn r (refuse_delete f)
      then (w, Raise (CollaboratorError "RouterInUse"))
      else cloud (delete_router r) w
  | router_get_all_instances r =>
      if memn r (refuse_instances f)
      then (w, Raise (CollaboratorError "NotFound"))
      else cloud (router_get_all_instances r) w
  | c' => cloud c' w
  end.

(** A configuration with a public key file and floating IPs. *)
Definition keyed_cfg (n : Z) : ScaleCfg :=
  {| public_key_file := Some "/home/kb/.ssh/id_rsa.pub";
     use_floatingip := true; redis_server := None; routers_per_user := n |}.

(** The faults of the examples. *)
Definition quota : Faults :=
  {| refuse_binding := false; refuse_router_at := Some 4;
     refuse_key_registration := false; refuse_delete := [];
     refuse_instances := [] |}.

Definition no_registration : Faults :=
  {| refuse_binding := false; refuse_router_at := None;
     refuse_key_registration := true; refuse_delete := [];
     refuse_instances := [] |}.

Definition no_binding : Faults :=
  {| refuse_binding := true; refuse_router_at := None;
     refuse_key_registration := false; refuse_delete := [];
     refuse_instances := [] |}.

Definition stuck_router : Faults :=
  {| refuse_binding := false; refuse_router_at := None;
     refuse_key_registration := false; refuse_delete := [3];
     refuse_instances := [] |}.

Definition silent_router : Faults :=
  {| refuse_binding := false; refuse_router_at := None;
     refuse_key_registration := false; refuse_delete := [];
     refuse_instances := [4] |}.

(** "alice" constructed on the empty cloud, before [create_resources]:
    with two routers to make, with three, and with a key file and
    floating IPs. *)
Definition alice_built : State Cloud :=
  Eval vm_compute in fst (alice_on empty_cloud 2).

Definition alice_three : State Cloud :=
  Eval vm_compute in fst (alice_on empty_cloud 3).

Definition alice_keyed : State Cloud :=
  Eval vm_compute in
    fst (__init__ cloud "alice" (tenant_of (keyed_cfg 2)) "admin"
                  (boot empty_cloud)).

(** The states in which their [create_resources] enters the router loop. *)
Definition alice_three_setup : State Cloud :=
  Eval vm_compute in fst (create_resources_setup (faulty quota) alice_three).

Definition alice_keyed_setup : State Cloud :=
  Eval vm_compute in fst (create_resources_setup cloud alice_keyed).

(** The account the empty cloud gives "alice", and the cloud after [n]
    handles. *)
Definition alice_account : KsUser := {| ks_id := "id-0"; ks_name := "alice" |}.

Definition cloud_at (n : nat) : Cloud := with_accounts [alice_account] n empty_cloud.

(** ** Vocabulary of the statements *)

(** The create request [_create_user] sends for an object. *)
Definition creation (u : User) : call KsUser :=
  users_create (user_name u) (user_name u) "kloudbuster@localhost"
               (tenant_id (tenant u)).

(** [user.name == self.user_name]. *)
Definition named (name : string) (user : KsUser) : bool :=
  String.eqb (ks_name user) name.

Definition is_create (e : event) : bool :=
  match e with
  | Ev c => match c with users_create _ _ _ _ => true | _ => false end
  end.

Definition is_binding (e : event) : bool :=
  match e with
  | Ev c => match c with roles_add_user_role _ _ _ => true | _ => false end
  end.

Definition count (p : event -> bool) (l : list event) : nat :=
  List.length (filter p l).

(** The state in which [__init__] calls [_get_user]: lines 39-45 done. *)
Definition entering {W} (user_name : string) (tenant : Tenant) (s : State W)
    : State W :=
  {| self := allocate user_name tenant; world := world s;
     trace := trace s; log := log s |}.

(** The state in which [__init__] reaches the role lookup: [_get_user]
    returned [admin] in [s], lines 46-49 done. *)
Definition enrolled_as {W} (admin : KsUser) (s : State W) : State W :=
  {| self := set_key_name (Bound None)
               (set_key_pair (Bound None)
                  (set_admin_user (Bound admin) (self s)));
     world := world s; trace := trace s; log := log s |}.

(** [issues P m]: whatever the state and the answers, the run of [m] only
    appends to the trace, and every call it appends satisfies [P]. *)
Definition issues {W A} (P : event -> Prop) (m : M W A) : Prop :=
  forall s, exists rest,
    trace (fst (m s)) = trace s ++ rest /\ Forall P rest.

Definition any_call : event -> Prop := fun _ => True.

(** The calls [delete_resources] has to make for an object, in the order
    of lines 106-114. *)
Definition teardown_plan (kp : option KeyPair) (u : User) : list event :=
  match kp with
  | Some k => [Ev (remove_public_key k)]
  | None => []
  end
  ++ map (fun r => Ev (delete_router r)) (router_list u)
  ++ [Ev (users_delete (ById (user_id u)))].

(** The collaborators carry out, in whatever state they are, the removals
    asked for the resources the object holds. *)
Definition teardown_calls_succeed {W}
    (handle : forall R, call R -> W -> W * outcome R) (u : User) : Prop :=
  (forall w k, key_pair u = Bound (Some k) ->
     exists w', handle _ (remove_public_key k) w = (w', Ok tt))
  /\ (forall w r, In r (router_list u) ->
        exists w', handle _ (delete_router r) w = (w', Ok tt))
  /\ (forall w, exists w',
        handle _ (users_delete (ById (user_id u))) w = (w', Ok tt)).

(** The three calls of one turn of the router loop, for the router [r]
    that [Router(self)] returned at count [k]. *)
Definition router_calls (owner : string) (config_scale : ScaleCfg)
    (external_network : option Network) (k : nat) (r : Router) : list event :=
  [Ev (Router_new owner);
   Ev (create_router r (owner ++ "-R" ++ str k)%string external_network);
   Ev (create_network_resources r config_scale)].

Definition is_lookup (e : event) : bool :=
  match e with
  | Ev c => match c with find_external_network _ => true | _ => false end
  end.

(** The external network a call attaches a router to, when the call is a
    [create_router]. *)
Definition attached_to (e : event) : option (option Network) :=
  match e with
  | Ev c => match c with
            | create_router _ _ ext => Some ext
            | _ => None
            end
  end.

(** The state in which [create_resources] enters the router loop: the
    setup ended in [s], line 158 logged. *)
Definition announced {W} (s : State W) : State W :=
  {| self := self s; world := world s; trace := trace s;
     log := log s ++ [(INFO, ("Creating routers and networks for user "
                              ++ user_name (self s))%string)] |}.

(** [range(config_scale['routers_per_user'])]. *)
Definition router_counts (config_scale : ScaleCfg) : list nat :=
  seq 0 (Z.to_nat (routers_per_user config_scale)).

(** [keeps I m]: a property of the object that holds before [m] holds
    after it, whatever the outcome. *)
Definition keeps {W A} (I : User -> Prop) (m : M W A) : Prop :=
  forall s, I (self s) -> I (self (fst (m s))).

(** Line 48 has been executed on the object. *)
Definition key_pair_bound (u : User) : Prop :=
  exists kp, key_pair u = Bound kp.

(** The states a caller can find an object in once the account exists:
    the construction got its account from [_get_user] and then ended, in
    the return of [__init__] or in a failure of the role lookup or of the
    role binding; from there [create_resources] ran, to its end or to a
    failure anywhere in it; and the world outside the object moved on. *)
Inductive salvageable {W} (handle : forall R, call R -> W -> W * outcome R)
    : State W -> Prop :=
| after_construction name t role s s1 admin :
    _get_user handle (entering name t s) = (s1, Ok admin) ->
    salvageable handle (fst (__init__ handle name t role s))
| after_create_resources s :
    salvageable handle s ->
    salvageable handle (fst (create_resources handle s))
| after_other_activity s w tr lg :
    salvageable handle s ->
    salvageable handle {| self := self s; world := w; trace := tr; log := lg |}.

(** What the routers of a list report as their instances when asked one
    after the other, from the world [w] on: the answers, in list order, and
    the world after the last. *)
Inductive reports {W} (handle : forall R, call R -> W -> W * outcome R)
    : W -> list Router -> W -> list (list Instance) -> Prop :=
| reports_nil w : reports handle w [] w []
| reports_cons w r w1 got rest w2 parts :
    handle _ (router_get_all_instances r) w = (w1, Ok got) ->
    reports handle w1 rest w2 parts ->
    reports handle w (r :: rest) w2 (got :: parts).

(** Calls by the service they go to. *)
Definition is_identity_call (e : event) : bool :=
  match e with
  | Ev c => match c with
            | users_create _ _ _ _ | users_list | users_delete _
            | roles_list | roles_add_user_role _ _ _ => true
            | _ => false
            end
  end.

Definition is_router_call (e : event) : bool :=
  match e with
  | Ev c => match c with
            | Router_new _ | create_router _ _ _
            | create_network_resources _ _ => true
            | _ => false
            end
  end.

Definition is_keypair_call (e : event) : bool :=
  match e with
  | Ev c => match c with
            | KeyPair_new _ | add_public_key _ _ _
            | remove_public_key _ => true
            | _ => false
            end
  end.

(** What a call asks the identity service to delete, if it does. *)
Definition deleted_account (e : event) : option delete_target :=
  match e with
  | Ev c => match c with users_delete target => Some target | _ => None end
  end.

(** The router a call creates, and the router a call deletes. *)
Definition created_by (e : event) : list Router :=
  match e with
  | Ev c => match c with create_router r _ _ => [r] | _ => [] end
  end.

Definition deleted_by (e : event) : list Router :=
  match e with
  | Ev c => match c with delete_router r => [r] | _ => [] end
  end.

Definition is_account_delete (e : event) : bool :=
  match deleted_account e with
  | Some _ => true
  | None => false
  end.

(** A call spares the accounts of other names: it deletes nothing, or it
    deletes an account resource that bears the name. *)
Definition spares (name : string) (e : event) : Prop :=
  match deleted_account e with
  | None => True
  | Some (ByResource user) => ks_name user = name
  | Some (ById _) => False
  end.

(** The name a call creates a router under. *)
Definition created_name (e : event) : list string :=
  match e with
  | Ev c => match c with create_router _ name _ => [name] | _ => [] end
  end.

(** The routers of a list are deleted one after the other, from the world
    [w] on, each deletion being carried out: the world after the last. *)
Inductive removed {W} (handle : forall R, call R -> W -> W * outcome R)
    : W -> list Router -> W -> Prop :=
| removed_nil w : removed handle w [] w
| removed_cons w r w1 rest w2 :
    handle _ (delete_router r) w = (w1, Ok tt) ->
    removed handle w1 rest w2 ->
    removed handle w (r :: rest) w2.

(** The state in which [delete_resources] reaches line 106: line 103
    logged. *)
Definition tearing_down {W} (s : State W) : State W :=
  {| self := self s; world := world s; trace := trace s;
     log := log s ++ [(INFO, ("Deleting all user resources for user "
                              ++ user_name (self s))%string)] |}.

(** ** Properties *)

Section Properties.

Variable W : Type.
Variable handle : forall R, call R -> W -> W * outcome R.

Local Arguments String.append : simpl never.

Ltac monad :=
  unfold bind, ret, raise, get, getattr, update, LOG, perform, try_except.

Tactic Notation "monad" "in" hyp(H) :=
  unfold bind, ret, raise, get, getattr, update, LOG, perform, try_except in H.

Ltac fields :=
  cbn [self world trace log fst snd
       user_name tenant user_id router_list neutron_client nova_client
       admin_user key_pair key_name
       set_user_id set_router_list set_neutron_client set_nova_client
       set_admin_user set_key_pair set_key_name allocate entering
       enrolled_as announced tearing_down].

Tactic Notation "fields" "in" hyp(H) :=
  cbn [self world trace log fst snd
       user_name tenant user_id router_list neutron_client nova_client
       admin_user key_pair key_name
       set_user_id set_router_list set_neutron_client set_nova_client
       set_admin_user set_key_pair set_key_name allocate entering
       enrolled_as announced tearing_down] in H.

(** Close a run whose final state and outcome are known. *)
Ltac finish E := fields in E; inversion E; subst; clear E; fields.

Lemma count_app p l1 l2 : count p (l1 ++ l2) = count p l1 + count p l2.
Proof. unfold count. now rewrite filter_app, length_app. Qed.

(** *** Which calls a computation can issue *)

Section Issues.

Variable P : event -> Prop.

Lemma issues_ret A (a : A) : issues P (@ret W A a).
Proof. intros s. exists []. cbn. now rewrite app_nil_r. Qed.

Lemma issues_raise A (e : exn) : issues P (@raise W A e).
Proof. intros s. exists []. cbn. now rewrite app_nil_r. Qed.

Lemma issues_get A (f : User -> A) : issues P (@get W A f).
Proof. intros s. exists []. cbn. now rewrite app_nil_r. Qed.

Lemma issues_getattr A (n : string) (f : User -> attr A) :
  issues P (@getattr W A n f).
Proof.
  intros s. exists []. unfold getattr.
  destruct (f (self s)); cbn; now rewrite app_nil_r.
Qed.

Lemma issues_update (f : User -> User) : issues P (@update W f).
Proof. intros s. exists []. cbn. now rewrite app_nil_r. Qed.

Lemma issues_LOG (l : level) (msg : string) : issues P (@LOG W l msg).
Proof. intros s. exists []. cbn. now rewrite app_nil_r. Qed.

Lemma issues_perform R (c : call R) : P (Ev c) -> issues P (perform handle c).
Proof.
  intros Hc s. exists [Ev c]. unfold perform.
  destruct (handle c (world s)) as [w' r]. cbn. auto.
Qed.

Lemma issues_bind A B (m : M W A) (k : A -> M W B) :
  issues P m -> (forall a, issues P (k a)) -> issues P (bind m k).
Proof.
  intros Hm Hk s. unfold bind.
  destruct (Hm s) as (r1 & H1 & F1).
  destruct (m s) as [s1 [a|e]]; cbn [fst] in H1.
  - destruct (Hk a s1) as (r2 & H2 & F2).
    exists (r1 ++ r2). rewrite H2, H1, app_assoc. split; [reflexivity|].
    apply Forall_app; auto.
  - exists r1. auto.
Qed.

Lemma issues_try_except A (m : M W A) (h : exn -> M W A) :
  issues P m -> (forall e, issues P (h e)) -> issues P (try_except m h).
Proof.
  intros Hm Hh s. unfold try_except.
  destruct (Hm s) as (r1 & H1 & F1).
  destruct (m s) as [s1 [a|e]]; cbn [fst] in H1.
  - exists r1. auto.
  - destruct (Hh e s1) as (r2 & H2 & F2).
    exists (r1 ++ r2). rewrite H2, H1, app_assoc. split; [reflexivity|].
    apply Forall_app; auto.
Qed.

Lemma issues_for_each A (l : list A) (body : A -> M W unit) :
  (forall x, issues P (body x)) -> issues P (for_each l body).
Proof.
  intros Hb. induction l as [|x rest IH]; cbn [for_each].
  - apply issues_ret.
  - apply issues_bind; auto.
Qed.

End Issues.

Lemma issues_weaken (P Q : event -> Prop) A (m : M W A) :
  (forall e, P e -> Q e) -> issues P m -> issues Q m.
Proof.
  intros HPQ Hm s. destruct (Hm s) as (rest & Ht & F).
  exists rest. split; [exact Ht|]. eapply Forall_impl; eauto.
Qed.

(** *** Which properties of the object a computation keeps *)

Section Keeps.

Variable I : User -> Prop.

Lemma keeps_ret A (a : A) : keeps I (@ret W A a).
Proof. now intros s. Qed.

Lemma keeps_raise A (e : exn) : keeps I (@raise W A e).
Proof. now intros s. Qed.

Lemma keeps_get A (f : User -> A) : keeps I (@get W A f).
Proof. now intros s. Qed.

Lemma keeps_getattr A (n : string) (f : User -> attr A) :
  keeps I (@getattr W A n f).
Proof. intros s. unfold getattr. now destruct (f (self s)). Qed.

Lemma keeps_LOG (l : level) (msg : string) : keeps I (@LOG W l msg).
Proof. now intros s. Qed.

Lemma keeps_perform R (c : call R) : keeps I (perform handle c).
Proof.
  intros s. unfold perform. now destruct (handle c (world s)) as [w' r].
Qed.

Lemma keeps_update (f : User -> User) :
  (forall u, I u -> I (f u)) -> keeps I (@update W f).
Proof. intros Hf s. exact (Hf (self s)). Qed.

Lemma keeps_bind A B (m : M W A) (k : A -> M W B) :
  keeps I m -> (forall a, keeps I (k a)) -> keeps I (bind m k).
Proof.
  intros Hm Hk s Hs. unfold bind. specialize (Hm s Hs).
  destruct (m s) as [s1 [a|e]]; [|exact Hm]. now apply Hk.
Qed.

Lemma keeps_for_each A (l : list A) (body : A -> M W unit) :
  (forall x, keeps I (body x)) -> keeps I (for_each l body).
Proof.
  intros Hb. induction l as [|x rest IH]; cbn [for_each].
  - apply keeps_ret.
  - apply keeps_bind; auto.
Qed.

End Keeps.

Create HintDb keeps.
#[local] Hint Resolve keeps_ret keeps_raise keeps_get keeps_getattr keeps_LOG
  keeps_perform keeps_bind keeps_for_each : keeps.

(** A call followed by a continuation: the call is the first one added. *)
Lemma issues_after_perform (P : event -> Prop) R A (c : call R)
    (k : R -> M W A) (s : State W) :
  (forall a, issues P (k a)) ->
  exists rest,
    trace (fst (bind (perform handle c) k s)) = trace s ++ Ev c :: rest
    /\ Forall P rest.
Proof.
  intros Hk. unfold bind, perform.
  destruct (handle c (world s)) as [w' [a|e]].
  - destruct (Hk a {| self := self s; world := w';
                      trace := trace s ++ [Ev c]; log := log s |})
      as (rest & Ht & F).
    exists rest. rewrite Ht. cbn [trace]. now rewrite <- app_assoc.
  - exists []. cbn. auto.
Qed.

Lemma bind_assoc A B C (m : M W A) (f : A -> M W B) (g : B -> M W C) s :
  bind (bind m f) g s = bind m (fun a => bind (f a) g) s.
Proof. unfold bind. now destruct (m s) as [s' [a|e]]. Qed.

Create HintDb issues.
#[local] Hint Resolve issues_ret issues_raise issues_get issues_getattr
  issues_update issues_LOG issues_bind issues_try_except issues_for_each
  : issues.

(** *** [_create_user] *)

Lemma create_user_issues (P : event -> Prop) :
  (forall n p e t, P (Ev (users_create n p e t))) ->
  issues P (_create_user handle).
Proof.
  intros HP. unfold _create_user.
  repeat (apply issues_bind; [auto with issues|intros]).
  now apply issues_perform.
Qed.

Lemma create_user_run (s : State W) :
  _create_user handle s =
  let (w', r) := handle (creation (self s)) (world s) in
  ({| self := self s; world := w';
      trace := trace s ++ [Ev (creation (self s))];
      log := log s ++ [(INFO, ("Creating user: " ++ user_name (self s))%string)] |},
   r).
Proof.
  unfold _create_user, creation. monad. cbn [self world trace log].
  now destruct (handle (users_create _ _ _ _) (world s)) as [w' r].
Qed.

(** *** The loop of [_get_user] *)

Lemma stale_user_loop_found (l : list KsUser) :
  forall (s : State W) (stale : KsUser),
    find (named (user_name (self s))) l = Some stale ->
    stale_user_loop handle l s =
    bind (LOG INFO ("Deleting stale user with name: " ++ user_name (self s)))
         (fun _ => bind (perform handle (users_delete (ByResource stale)))
         (fun _ => bind (_create_user handle)
         (fun user' => ret (Some user')))) s.
Proof.
  induction l as [|user rest IH]; intros s stale Hfind; [discriminate|].
  cbn [find] in Hfind. cbn [stale_user_loop].
  unfold bind at 1, get at 1. unfold named in Hfind at 1.
  destruct (String.eqb (ks_name user) (user_name (self s))).
  - now inversion Hfind.
  - now apply IH.
Qed.

Lemma stale_user_loop_missing (l : list KsUser) :
  forall s : State W,
    find (named (user_name (self s))) l = None ->
    stale_user_loop handle l s = (s, Ok None).
Proof.
  induction l as [|user rest IH]; intros s Hfind; [reflexivity|].
  cbn [find] in Hfind. cbn [stale_user_loop].
  unfold bind at 1, get at 1. unfold named in Hfind at 1.
  destruct (String.eqb (ks_name user) (user_name (self s))).
  - discriminate.
  - now apply IH.
Qed.

(** The state [_get_user] is in after a create call that answered [409]:
    the warning is logged and the listing is the next call. *)
Lemma get_user_conflict_run (s : State W) (w1 : W) (m : string) :
  handle (creation (self s)) (world s) = (w1, Raise (Conflict 409 m)) ->
  _get_user handle s =
  bind (bind (perform handle users_list) (stale_user_loop handle))
       (fun returned =>
          match returned with
          | Some user => ret user
          | None =>
              bind (get user_name)
                   (fun name =>
                      raise (Exception ("Cannot find stale user:" ++ name)))
          end)
       {| self := self s; world := w1;
          trace := trace s ++ [Ev (creation (self s))];
          log := (log s ++ [(INFO, ("Creating user: " ++ user_name (self s))%string)])
                 ++ [(WARN, ("User creation failed due to stale user with same name: "
                             ++ user_name (self s))%string)] |}.
Proof.
  intros H1.
  unfold _get_user. unfold bind at 1. unfold try_except.
  unfold bind at 1. rewrite create_user_run, H1.
  cbn [negb Z.eqb Pos.eqb].
  unfold bind at 1, get at 1. unfold bind at 1, LOG at 1.
  reflexivity.
Qed.

Lemma get_user_propagates (s : State W) (w1 : W) (e : exn) :
  handle (creation (self s)) (world s) = (w1, Raise e) ->
  (forall m, e <> Conflict 409 m) ->
  _get_user handle s =
  ({| self := self s; world := w1;
      trace := trace s ++ [Ev (creation (self s))];
      log := log s ++ [(INFO, ("Creating user: " ++ user_name (self s))%string)] |},
   Raise e).
Proof.
  intros H1 Hne.
  unfold _get_user. unfold bind at 1. unfold try_except.
  unfold bind at 1. rewrite create_user_run, H1.
  destruct e as [status m| | |]; try reflexivity.
  destruct (Z.eqb_spec status 409) as [->|Hs]; [now elim (Hne m)|reflexivity].
Qed.

Lemma get_user_created (s : State W) (w1 : W) (account : KsUser) :
  handle (creation (self s)) (world s) = (w1, Ok account) ->
  _get_user handle s =
  ({| self := self s; world := w1;
      trace := trace s ++ [Ev (creation (self s))];
      log := log s ++ [(INFO, ("Creating user: " ++ user_name (self s))%string)] |},
   Ok account).
Proof.
  intros H1.
  unfold _get_user. unfold bind at 1. unfold try_except.
  unfold bind at 1. now rewrite create_user_run, H1.
Qed.

(** Whatever the identity service answers, [_get_user] starts with the
    create request, issues at most one more, and leaves the object as it
    found it. *)
Lemma get_user_issues (s : State W) :
  exists rest,
    trace (fst (_get_user handle s))
      = trace s ++ Ev (creation (self s)) :: rest
    /\ count is_create rest <= 1
    /\ self (fst (_get_user handle s)) = self s.
Proof.
  destruct (_get_user handle s) as [s' r] eqn:E.
  destruct (handle (creation (self s)) (world s)) as [w1 [account|e]] eqn:H1.
  - rewrite (get_user_created _ H1) in E. finish E. exists []. auto.
  - assert (Hcase : (forall m, e <> Conflict 409 m) \/ exists m, e = Conflict 409 m).
    { destruct e as [status m| | |]; try (left; discriminate).
      destruct (Z.eqb_spec status 409) as [->|Hs]; [right; now exists m|].
      left. intros m' E'. inversion E'. contradiction. }
    destruct Hcase as [Hne|[m ->]].
    + rewrite (get_user_propagates _ H1 Hne) in E. finish E. exists []. auto.
    + rewrite (get_user_conflict_run _ H1) in E.
      unfold bind at 1 2 in E. unfold perform at 1 in E. fields in E.
      destruct (handle users_list w1) as [w2 [l|e2]].
      * destruct (find (named (user_name (self s))) l) as [stale|] eqn:Hf.
        -- rewrite stale_user_loop_found with (stale := stale) in E by exact Hf.
           unfold bind at 1 2 in E. unfold LOG at 1 in E. fields in E.
           unfold perform at 1 in E. fields in E.
           destruct (handle (users_delete (ByResource stale)) w2) as [w3 [[]|e3]].
           ++ unfold bind at 1 in E. rewrite create_user_run in E. fields in E.
              destruct (handle (creation (self s)) w3) as [w4 [a|e4]].
              all: monad in E; finish E; rewrite <- !app_assoc; eexists.
              all: (split; [reflexivity|]); cbn; auto.
           ++ finish E. rewrite <- !app_assoc; eexists;
                (split; [reflexivity|]); cbn; auto.
        -- rewrite stale_user_loop_missing in E by exact Hf.
           monad in E. finish E. rewrite <- !app_assoc; eexists;
                (split; [reflexivity|]); cbn; auto.
      * finish E. rewrite <- !app_assoc; eexists;
                (split; [reflexivity|]); cbn; auto.
Qed.

(** *** [__init__] *)

Lemma init_run (name : string) (t : Tenant) (role : string) (s : State W) :
  __init__ handle name t role s =
  match _get_user handle (entering name t s) with
  | (s', Ok admin) => bind_role handle t role (enrolled_as admin s')
  | (s', Raise e) => (s', Raise e)
  end.
Proof.
  unfold __init__. unfold bind at 1. unfold update at 1.
  unfold bind at 1. fold (entering name t s).
  now destruct (_get_user handle (entering name t s)) as [s' [admin|e]].
Qed.

Lemma bind_role_run (t : Tenant) (role : string) (s : State W) (admin : KsUser) :
  admin_user (self s) = Bound admin ->
  bind_role handle t role s =
  match handle roles_list (world s) with
  | (w1, Raise e) =>
      ({| self := self s; world := w1;
          trace := trace s ++ [Ev roles_list]; log := log s |}, Raise e)
  | (w1, Ok roles) =>
      let binding :=
        roles_add_user_role admin (role_loop roles role None) (tenant_id t) in
      match handle binding w1 with
      | (w2, Raise e) =>
          ({| self := self s; world := w2;
              trace := trace s ++ [Ev roles_list; Ev binding];
              log := log s |}, Raise e)
      | (w2, Ok _) =>
          ({| self := set_user_id (Some (ks_id admin)) (self s); world := w2;
              trace := trace s ++ [Ev roles_list; Ev binding];
              log := log s |}, Ok tt)
      end
  end.
Proof.
  intros Hadmin. unfold bind_role. monad. fields.
  destruct (handle roles_list (world s)) as [w1 [roles|e]]; [|reflexivity].
  fields. rewrite Hadmin. fields.
  destruct (handle (roles_add_user_role _ _ _) w1) as [w2 [[]|e]];
    fields; rewrite ?Hadmin, <- ?app_assoc; reflexivity.
Qed.

Lemma bind_role_issues (t : Tenant) (role : string) (s : State W) (admin : KsUser) :
  admin_user (self s) = Bound admin ->
  exists rest,
    trace (fst (bind_role handle t role s)) = trace s ++ rest
    /\ count is_create rest = 0.
Proof.
  intros Hadmin. rewrite (bind_role_run t role s Hadmin).
  destruct (handle roles_list (world s)) as [w1 [roles|e]].
  - cbv zeta.
    destruct (handle (roles_add_user_role _ _ _) w1) as [w2 [[]|e]];
      fields; eexists; split; reflexivity.
  - fields; eexists; split; reflexivity.
Qed.

(** The calls of a construction: those of [_get_user], then those of the
    role binding, none of which is a create. *)
Lemma init_issues (name : string) (t : Tenant) (role : string) (s : State W) :
  exists rest,
    trace (fst (__init__ handle name t role s))
      = trace (fst (_get_user handle (entering name t s))) ++ rest
    /\ count is_create rest = 0.
Proof.
  rewrite init_run.
  destruct (_get_user handle (entering name t s)) as [s' [admin|e]].
  - destruct (@bind_role_issues t role (enrolled_as admin s') admin eq_refl)
      as (rest & Ht & Hc).
    exists rest. now rewrite Ht.
  - exists []. fields. now rewrite app_nil_r.
Qed.

(** C8. A 409 conflict followed by a listing that holds no account of
    the requested name ends the construction in the plain exception
    ['Cannot find stale user:' + user_name]; the only calls issued are the
    refused create and the listing, so no second create is made. *)
Theorem init_stale_account_missing
    (name : string) (t : Tenant) (role : string)
    (s : State W) (w1 w2 : W) (m : string) (l : list KsUser) :
  let create := users_create name name "kloudbuster@localhost" (tenant_id t) in
  handle create (world s) = (w1, Raise (Conflict 409 m)) ->
  handle users_list w1 = (w2, Ok l) ->
  find (named name) l = None ->
  snd (__init__ handle name t role s)
    = Raise (Exception ("Cannot find stale user:" ++ name))
  /\ trace (fst (__init__ handle name t role s))
     = trace s ++ [Ev create; Ev users_list]
  /\ count is_create (trace (fst (__init__ handle name t role s)))
     = count is_create (trace s) + 1.
Proof.
  intros create H1 H2 H3.
  rewrite init_run.
  destruct (_get_user handle (entering name t s)) as [s' r] eqn:E.
  rewrite (@get_user_conflict_run (entering name t s) w1 m H1) in E.
  unfold bind, perform in E. fields in E. rewrite H2 in E.
  rewrite stale_user_loop_missing in E by exact H3.
  monad in E. finish E. rewrite <- app_assoc.
  split; [reflexivity|]. split; [reflexivity|].
  now rewrite count_app.
Qed.

(** *** The repair path of [_get_user] *)

Lemma stale_user_loop_issues (l : list KsUser) :
  issues any_call (stale_user_loop handle l).
Proof.
  induction l as [|user rest IH]; cbn [stale_user_loop]; auto with issues.
  apply issues_bind; [auto with issues|intros name].
  destruct (String.eqb (ks_name user) name); [|exact IH].
  apply issues_bind; [auto with issues|intros _].
  apply issues_bind; [now apply issues_perform|intros _].
  apply issues_bind; [now apply create_user_issues|auto with issues].
Qed.

(** After a 409 the listing is the next call, whatever follows. *)
Lemma get_user_lists (s : State W) (w1 : W) (m : string) :
  handle (creation (self s)) (world s) = (w1, Raise (Conflict 409 m)) ->
  exists rest,
    trace (fst (_get_user handle s))
      = trace s ++ Ev (creation (self s)) :: Ev users_list :: rest.
Proof.
  intros H1. rewrite (get_user_conflict_run _ H1), bind_assoc.
  match goal with |- context [bind (perform handle users_list) ?k ?s1] =>
    destruct (@issues_after_perform any_call _ _ users_list k s1)
      as (rest & Ht & _) end.
  - intros l. apply issues_bind; [apply stale_user_loop_issues|].
    intros [user|]; auto with issues.
  - exists rest. rewrite Ht. fields. now rewrite <- app_assoc.
Qed.

(** When the listing shows an account of that name, its delete follows. *)
Lemma get_user_deletes (s : State W) (w1 w2 : W) (m : string)
    (l : list KsUser) (stale : KsUser) :
  handle (creation (self s)) (world s) = (w1, Raise (Conflict 409 m)) ->
  handle users_list w1 = (w2, Ok l) ->
  find (named (user_name (self s))) l = Some stale ->
  exists rest,
    trace (fst (_get_user handle s))
      = trace s ++ [Ev (creation (self s)); Ev users_list;
                    Ev (users_delete (ByResource stale))] ++ rest.
Proof.
  intros H1 H2 Hf. rewrite (get_user_conflict_run _ H1).
  unfold bind at 1 2. unfold perform at 1. fields. rewrite H2.
  rewrite stale_user_loop_found with (stale := stale) by exact Hf.
  unfold bind at 1, LOG at 1. fields.
  match goal with |- context [bind (perform handle ?c) ?k ?s1] =>
    destruct (@issues_after_perform any_call _ _ c k s1)
      as (rest & Ht & _) end.
  - intros []. apply issues_bind; [now apply create_user_issues|].
    auto with issues.
  - destruct (bind _ _ _) as [s3 [[user|]|e]]; fields in Ht;
      monad; fields; exists rest; rewrite Ht, <- !app_assoc; reflexivity.
Qed.

(** When that delete succeeds, the second create is the last call, and
    its outcome is the outcome of [_get_user]. *)
Lemma get_user_retries (s : State W) (w1 w2 w3 : W) (m : string)
    (l : list KsUser) (stale : KsUser) :
  handle (creation (self s)) (world s) = (w1, Raise (Conflict 409 m)) ->
  handle users_list w1 = (w2, Ok l) ->
  find (named (user_name (self s))) l = Some stale ->
  handle (users_delete (ByResource stale)) w2 = (w3, Ok tt) ->
  trace (fst (_get_user handle s))
    = trace s ++ [Ev (creation (self s)); Ev users_list;
                  Ev (users_delete (ByResource stale));
                  Ev (creation (self s))]
  /\ snd (_get_user handle s) = snd (handle (creation (self s)) w3)
  /\ world (fst (_get_user handle s)) = fst (handle (creation (self s)) w3)
  /\ self (fst (_get_user handle s)) = self s.
Proof.
  intros H1 H2 Hf H3.
  destruct (_get_user handle s) as [s' r] eqn:E.
  rewrite (get_user_conflict_run _ H1) in E.
  unfold bind at 1 2 in E. unfold perform at 1 in E. fields in E.
  rewrite H2 in E.
  rewrite stale_user_loop_found with (stale := stale) in E by exact Hf.
  unfold bind at 1 2 in E. unfold LOG at 1 in E. fields in E.
  unfold perform at 1 in E. fields in E. rewrite H3 in E.
  unfold bind at 1 in E. rewrite create_user_run in E. fields in E.
  destruct (handle (creation (self s)) w3) as [w4 [a|e4]];
    monad in E; finish E; rewrite <- !app_assoc; auto.
Qed.

(** C1. When the create request of a construction is refused, either
    the refusal is not a 409 conflict, and it reaches the caller as it is,
    after that single call; or it is a 409 conflict, and then the listing
    is the next call, the construction as a whole issues at most two
    creates, the first account of the requested name in the listing is
    deleted next, and once that delete succeeded the second create
    follows it and no third one ever does: if the second create is refused
    as well, its exception is the outcome and nothing more is called. *)
Theorem init_conflict_repair
    (name : string) (t : Tenant) (role : string)
    (s : State W) (w1 : W) (e : exn) :
  let create := users_create name name "kloudbuster@localhost" (tenant_id t) in
  let final := __init__ handle name t role s in
  handle create (world s) = (w1, Raise e) ->
  ((forall m, e <> Conflict 409 m) ->
     snd final = Raise e /\ trace (fst final) = trace s ++ [Ev create])
  /\
  ((exists m, e = Conflict 409 m) ->
     (exists rest,
        trace (fst final) = trace s ++ Ev create :: Ev users_list :: rest)
     /\ count is_create (trace (fst final)) <= count is_create (trace s) + 2
     /\ forall w2 l stale,
          handle users_list w1 = (w2, Ok l) ->
          find (named name) l = Some stale ->
          (exists rest,
             trace (fst final)
               = trace s ++ [Ev create; Ev users_list;
                             Ev (users_delete (ByResource stale))] ++ rest)
          /\ forall w3,
               handle (users_delete (ByResource stale)) w2 = (w3, Ok tt) ->
               exists rest,
                 trace (fst final)
                   = trace s ++ [Ev create; Ev users_list;
                                 Ev (users_delete (ByResource stale));
                                 Ev create] ++ rest
                 /\ count is_create rest = 0
                 /\ forall w4 e',
                      handle create w3 = (w4, Raise e') ->
                      snd final = Raise e' /\ rest = []).
Proof.
  intros create final H1.
  destruct (init_issues name t role s) as (tail & Htail & Hnone).
  fold final in Htail.
  split.
  - intros Hne. subst final. rewrite init_run.
    rewrite (@get_user_propagates (entering name t s) w1 e H1 Hne).
    fields. auto.
  - intros [m ->]. split; [|split].
    + destruct (@get_user_lists (entering name t s) w1 m H1) as (rest & Ht).
      exists (rest ++ tail). rewrite Htail, Ht. fields.
      now rewrite <- app_assoc.
    + destruct (get_user_issues (entering name t s)) as (rest & Ht & Hc & _).
      rewrite Htail, Ht. fields.
      rewrite !count_app, Hnone. change (Ev (creation _) :: rest)
        with ([Ev create] ++ rest). rewrite count_app. cbn. lia.
    + intros w2 l stale H2 Hf. split.
      * destruct (@get_user_deletes (entering name t s) w1 w2 m l stale H1 H2 Hf)
          as (rest & Ht).
        exists (rest ++ tail). rewrite Htail, Ht. fields.
        now rewrite <- !app_assoc.
      * intros w3 H3.
        destruct (@get_user_retries (entering name t s) w1 w2 w3 m l stale
                    H1 H2 Hf H3) as (Ht & Hr & _ & _).
        exists tail. rewrite Htail, Ht. fields.
        rewrite <- !app_assoc. split; [reflexivity|]. split; [exact Hnone|].
        intros w4 e' H4. unfold creation in Hr. fields in Hr.
        fold create in Hr. rewrite H4 in Hr.
        subst final. revert Htail. rewrite init_run.
        destruct (_get_user handle (entering name t s)) as [s' r].
        cbn [snd] in Hr. subst r. fields. intros Htail.
        split; [reflexivity|].
        apply (app_inv_head (trace s')). now rewrite app_nil_r.
Qed.

(** *** The role lookup *)

Lemma role_loop_first (before after : list KsRole) (r : KsRole)
    (role : string) (current : option KsRole) :
  role_name r = role ->
  (forall x, In x before -> role_name x <> role) ->
  role_loop (before ++ r :: after) role current = Some r.
Proof.
  intros Hr. induction before as [|x before IH]; intros Hb; cbn.
  - subst role. now rewrite String.eqb_refl.
  - destruct (String.eqb_spec (role_name x) role) as [Hx|_].
    + elim (Hb x); auto with datatypes.
    + apply IH. intros y Hy. apply Hb. now right.
Qed.

Lemma role_loop_none (roles : list KsRole) (role : string)
    (current : option KsRole) :
  (forall x, In x roles -> role_name x <> role) ->
  role_loop roles role current = current.
Proof.
  induction roles as [|x roles IH]; intros Hb; cbn; [reflexivity|].
  destruct (String.eqb_spec (role_name x) role) as [Hx|_].
  - elim (Hb x); auto with datatypes.
  - apply IH. intros y Hy. apply Hb. now right.
Qed.

(** C5. Once [_get_user] has returned the account, and the identity
    service has listed its roles, the construction issues exactly one more
    call, the role binding, and its outcome is the outcome of that call:
    the role handed over is the first one of the listing whose name is the
    requested name, and it is the null reference when no role of the
    listing has that name -- the binding is requested all the same. *)
Theorem init_role_lookup
    (name : string) (t : Tenant) (role : string)
    (s s1 : State W) (admin : KsUser) (w2 : W) (roles : list KsRole) :
  _get_user handle (entering name t s) = (s1, Ok admin) ->
  handle roles_list (world s1) = (w2, Ok roles) ->
  exists current_role,
    let binding := roles_add_user_role admin current_role (tenant_id t) in
    trace (fst (__init__ handle name t role s))
      = trace s1 ++ [Ev roles_list; Ev binding]
    /\ snd (__init__ handle name t role s)
       = match snd (handle binding w2) with
         | Ok _ => Ok tt
         | Raise e => Raise e
         end
    /\ (forall before r after,
          roles = before ++ r :: after ->
          role_name r = role ->
          (forall x, In x before -> role_name x <> role) ->
          current_role = Some r)
    /\ ((forall x, In x roles -> role_name x <> role) ->
        current_role = None).
Proof.
  intros Hget Hroles.
  exists (role_loop roles role None). cbv zeta.
  rewrite init_run, Hget.
  rewrite (@bind_role_run t role (enrolled_as admin s1) admin eq_refl).
  fields. rewrite Hroles. cbv zeta.
  destruct (handle (roles_add_user_role _ _ _) w2) as [w3 [[]|e]]; fields.
  all: split; [reflexivity|]; split; [reflexivity|]; split.
  all: try (intros before r after -> Hr Hb; now apply role_loop_first).
  all: intros Hb; now apply role_loop_none.
Qed.

(** C3. When the identity service accepts the create request (the name
    is not taken) and lists its roles, the construction has issued exactly
    these calls: one create, carrying the user name as name and as
    password, the placeholder address and the id of the tenant; the role
    listing; one role binding for the account the create returned.  When
    the binding succeeds the construction does, and [user_id] is the id of
    that account. *)
Theorem init_fresh_name
    (name : string) (t : Tenant) (role : string)
    (s : State W) (w1 w2 : W) (account : KsUser) (roles : list KsRole) :
  let create := users_create name name "kloudbuster@localhost" (tenant_id t) in
  let binding :=
    roles_add_user_role account (role_loop roles role None) (tenant_id t) in
  let final := __init__ handle name t role s in
  handle create (world s) = (w1, Ok account) ->
  handle roles_list w1 = (w2, Ok roles) ->
  trace (fst final) = trace s ++ [Ev create; Ev roles_list; Ev binding]
  /\ count is_create (trace (fst final)) = count is_create (trace s) + 1
  /\ count is_binding (trace (fst final)) = count is_binding (trace s) + 1
  /\ forall w3,
       handle binding w2 = (w3, Ok tt) ->
       snd final = Ok tt
       /\ user_id (self (fst final)) = Some (ks_id account)
       /\ user_name (self (fst final)) = name.
Proof.
  intros create binding final H1 H2. subst final.
  rewrite init_run.
  rewrite (@get_user_created (entering name t s) w1 account H1).
  rewrite bind_role_run with (admin := account) by reflexivity.
  fields. rewrite H2. cbv zeta. fold binding.
  assert (Htrace : forall l : list event,
            (l ++ [Ev create]) ++ [Ev roles_list; Ev binding]
            = l ++ [Ev create; Ev roles_list; Ev binding])
    by (intros l; now rewrite <- app_assoc).
  destruct (handle binding w2) as [w3 [[]|e]]; fields;
    unfold creation; fields; fold create; rewrite Htrace.
  all: split; [reflexivity|]; split; [now rewrite count_app|].
  all: split; [now rewrite count_app|].
  all: intros w3' E; inversion E; auto.
Qed.

(** *** Loops of calls *)

(** A loop of calls issues them in the order of the list, up to the
    first that raises. *)
Lemma for_each_perform_run A (f : A -> call unit) (l : list A) :
  forall s : State W,
    self (fst (for_each l (fun x => perform handle (f x)) s)) = self s
    /\ exists done rest,
         l = done ++ rest
         /\ trace (fst (for_each l (fun x => perform handle (f x)) s))
            = trace s ++ map (fun x => Ev (f x)) done
         /\ (snd (for_each l (fun x => perform handle (f x)) s) = Ok tt ->
             rest = []).
Proof.
  induction l as [|x l IH]; intros s; cbn [for_each].
  - split; [reflexivity|]. exists [], []. cbn. rewrite app_nil_r. auto.
  - unfold bind. unfold perform at 1 3 5.
    destruct (handle (f x) (world s)) as [w' [[]|e]].
    + match goal with |- context [for_each l _ ?s1] =>
        destruct (IH s1) as (Hself & done & rest & Hl & Ht & Hok) end.
      split; [exact Hself|].
      exists (x :: done), rest. cbn [trace] in Ht. rewrite Ht.
      cbn [map]. rewrite <- app_assoc.
      split; [now rewrite Hl|]. split; [reflexivity|exact Hok].
    + split; [reflexivity|].
      exists [x], l. cbn. repeat split. discriminate.
Qed.

Lemma for_each_perform_succeeds A (f : A -> call unit) (l : list A) :
  (forall x w, In x l -> exists w', handle (f x) w = (w', Ok tt)) ->
  forall s : State W,
    snd (for_each l (fun x => perform handle (f x)) s) = Ok tt.
Proof.
  induction l as [|x l IH]; intros Hall s; cbn [for_each]; [reflexivity|].
  unfold bind. unfold perform at 1.
  destruct (Hall x (world s)) as (w' & ->); [now left|].
  apply IH. intros y w Hy. apply Hall. now right.
Qed.

(** *** [delete_resources] *)

(** Lines 109-114: the routers, then the account. *)
Lemma delete_routers_then_account (s : State W) :
  let final :=
    bind (get router_list)
      (fun routers =>
         bind (for_each routers
                 (fun router => perform handle (delete_router router)))
           (fun _ =>
              bind (get user_id)
                (fun uid => perform handle (users_delete (ById uid))))) s in
  self (fst final) = self s
  /\ (exists issued pending,
        map (fun r => Ev (delete_router r)) (router_list (self s))
          ++ [Ev (users_delete (ById (user_id (self s))))]
        = issued ++ pending
        /\ trace (fst final) = trace s ++ issued
        /\ (snd final = Ok tt -> pending = []))
  /\ (router_list (self s) = [] ->
      trace (fst final)
        = trace s ++ [Ev (users_delete (ById (user_id (self s))))]).
Proof.
  cbv zeta.
  match goal with |- context [fst ?x] => destruct x as [s' r] eqn:E end.
  cbn [fst snd].
  unfold bind at 1, get at 1 in E. unfold bind at 1 in E.
  assert (Hone : router_list (self s) = [] ->
                 trace s' = trace s
                   ++ [Ev (users_delete (ById (user_id (self s))))]).
  { intros Hnil. rewrite Hnil in E. cbn [for_each] in E.
    unfold bind, ret, get, perform in E.
    destruct (handle _ (world s)) as [w3 r3]. now finish E. }
  destruct (for_each_perform_run delete_router (router_list (self s)) s)
    as (Hself & done & rest & Hl & Ht & Hok).
  destruct (for_each _ _ s) as [s2 [[]|e]]; cbn [fst snd] in *.
  - rewrite (Hok eq_refl), app_nil_r in Hl.
    unfold bind, get, perform in E. rewrite Hself in E.
    destruct (handle _ (world s2)) as [w3 r3].
    fields in E. inversion E; subst s' r; clear E. fields. fields in Hone.
    split; [reflexivity|]. split; [|exact Hone].
    eexists _, []. rewrite app_nil_r, Ht, <- Hl, <- app_assoc. auto.
  - inversion E; subst s' r; clear E.
    split; [exact Hself|]. split; [|exact Hone].
    exists (map (fun x => Ev (delete_router x)) done),
           (map (fun x => Ev (delete_router x)) rest
            ++ [Ev (users_delete (ById (user_id (self s))))]).
    rewrite Hl, map_app, <- app_assoc.
    split; [reflexivity|]. split; [exact Ht|discriminate].
Qed.

(** The teardown follows its plan. *)
Lemma delete_resources_plan (s : State W) (kp : option KeyPair) :
  key_pair (self s) = Bound kp ->
  let final := delete_resources handle s in
  let plan := teardown_plan kp (self s) in
  self (fst final) = self s
  /\ (exists issued pending,
        plan = issued ++ pending
        /\ trace (fst final) = trace s ++ issued
        /\ (snd final = Ok tt -> pending = []))
  /\ (kp = None -> router_list (self s) = [] ->
      trace (fst final)
        = trace s ++ [Ev (users_delete (ById (user_id (self s))))]).
Proof.
  intros Hkp final plan. subst final plan.
  destruct (delete_resources handle s) as [s' r] eqn:E.
  unfold delete_resources in E.
  unfold bind at 1, get at 1 in E. unfold bind at 1, LOG at 1 in E.
  unfold bind at 1, getattr at 1 in E. fields in E. rewrite Hkp in E.
  unfold bind at 1 in E. unfold teardown_plan.
  destruct kp as [k|].
  - unfold perform at 1 in E. fields in E.
    destruct (handle (remove_public_key k) (world s)) as [w1 [[]|e]].
    + match type of E with bind _ _ ?s1 = _ =>
        destruct (delete_routers_then_account s1) as (Hself & Hplan & _) end.
      rewrite E in Hself, Hplan. fields in Hself. fields in Hplan.
      split; [exact Hself|]. split; [|discriminate].
      destruct Hplan as (issued & pending & Hp & Ht & Hok).
      exists (Ev (remove_public_key k) :: issued), pending.
      cbn [fst snd app]. rewrite Ht, <- app_assoc, Hp. auto.
    + finish E. split; [reflexivity|]. split; [|discriminate].
      eexists [_], _. cbn [app].
      split; [reflexivity|]. split; [reflexivity|discriminate].
  - unfold ret at 1 in E.
    match type of E with bind _ _ ?s1 = _ =>
      destruct (delete_routers_then_account s1) as (Hself & Hplan & Hone) end.
    rewrite E in Hself, Hplan, Hone.
    fields in Hself. fields in Hplan. fields in Hone.
    split; [exact Hself|]. split; [exact Hplan|]. intros _. exact Hone.
Qed.


(** The teardown returns once the collaborators carry out what it asks
    for, on any object whose [key_pair] attribute is bound. *)
Lemma delete_resources_succeeds (s : State W) (kp : option KeyPair) :
  key_pair (self s) = Bound kp ->
  teardown_calls_succeed handle (self s) ->
  snd (delete_resources handle s) = Ok tt.
Proof.
  intros Hkp (Hremove & Hrouters & Haccount).
  unfold delete_resources.
  unfold bind at 1, get at 1. unfold bind at 1, LOG at 1.
  unfold bind at 1, getattr at 1. fields. rewrite Hkp.
  assert (Htail : forall s1 : State W, self s1 = self s ->
    snd (bind (get router_list)
      (fun routers =>
         bind (for_each routers
                 (fun router => perform handle (delete_router router)))
           (fun _ =>
              bind (get user_id)
                (fun uid => perform handle (users_delete (ById uid))))) s1)
    = Ok tt).
  { intros s1 H1. unfold bind at 1, get at 1. unfold bind at 1.
    pose proof (for_each_perform_run delete_router (router_list (self s1)) s1)
      as (Hself & _).
    assert (Hok : snd (for_each (router_list (self s1))
                         (fun x => perform handle (delete_router x)) s1)
                  = Ok tt).
    { apply for_each_perform_succeeds. intros x w Hx.
      apply Hrouters. now rewrite <- H1. }
    destruct (for_each _ _ s1) as [s2 [[]|e]]; [|discriminate].
    cbn [fst] in Hself. unfold bind, get, perform.
    rewrite Hself, H1.
    now destruct (Haccount (world s2)) as (w3 & ->). }
  unfold bind at 1.
  destruct kp as [k|].
  - unfold perform at 1. fields.
    destruct (Hremove (world s) k Hkp) as (w1 & ->).
    now apply Htail.
  - unfold ret at 1. now apply Htail.
Qed.

(** C6. On an object whose [key_pair] attribute is bound,
    [delete_resources] leaves the object as it is and works through the
    plan [remove the public key, if and only if there is a key pair; delete
    the routers in list order; delete the account by the stored id]: the
    calls it has issued are always an initial part of that plan; when the
    collaborators carry the removals out it returns having issued the
    whole plan; and with no key pair and no router its single call is the
    delete of the account. *)
Theorem delete_resources_order (s : State W) (kp : option KeyPair) :
  key_pair (self s) = Bound kp ->
  let final := delete_resources handle s in
  let plan := teardown_plan kp (self s) in
  self (fst final) = self s
  /\ (exists issued pending,
        plan = issued ++ pending
        /\ trace (fst final) = trace s ++ issued
        /\ (snd final = Ok tt -> pending = []))
  /\ (teardown_calls_succeed handle (self s) ->
      snd final = Ok tt /\ trace (fst final) = trace s ++ plan)
  /\ (kp = None -> router_list (self s) = [] ->
      trace (fst final)
        = trace s ++ [Ev (users_delete (ById (user_id (self s))))]).
Proof.
  intros Hkp final plan.
  destruct (@delete_resources_plan s kp Hkp) as (Hself & Hplan & Hone).
  fold final in Hself, Hplan, Hone. fold plan in Hplan.
  split; [exact Hself|]. split; [exact Hplan|]. split; [|exact Hone].
  intros Hcalls.
  pose proof (delete_resources_succeeds s Hkp Hcalls) as Hok.
  fold final in Hok. split; [exact Hok|].
  destruct Hplan as (issued & pending & Hp & Ht & Hall).
  now rewrite Ht, Hp, (Hall Hok), app_nil_r.
Qed.

(** *** What [create_resources] keeps of the object *)

(** A property of the object that no assignment of [create_resources]
    can undo is kept by it. *)
Lemma create_resources_keeps (I : User -> Prop) :
  (forall v u, I u -> I (set_neutron_client v u)) ->
  (forall v u, I u -> I (set_nova_client v u)) ->
  (forall k u, I u -> I (set_key_pair (Bound (Some k)) u)) ->
  (forall v u, I u -> I (set_key_name v u)) ->
  (forall v u, I u -> I (set_router_list v u)) ->
  keeps I (create_resources handle).
Proof.
  intros Hn Hv Hk Hkn Hr.
  assert (Hup : forall f, (forall u, I u -> I (f u)) -> keeps I (@update W f))
    by (intros f; apply keeps_update).
  unfold create_resources, create_resources_setup, create_routers,
    create_one_router.
  repeat first
    [ apply keeps_bind; [|intros]
    | apply keeps_for_each; intros
    | match goal with |- keeps _ (if ?b then _ else _) => destruct b end
    | solve [auto with keeps] ].
Qed.

Lemma key_pair_bound_salvageable (s : State W) :
  salvageable handle s -> key_pair_bound (self s).
Proof.
  induction 1 as [name t role s s1 admin Hget|s _ IH|s w tr lg _ IH].
  - rewrite init_run, Hget.
    assert (Hk : keeps key_pair_bound (bind_role handle t role)).
    { unfold bind_role.
      repeat (apply keeps_bind; [auto with keeps|intros]).
      apply keeps_update. intros u [kp Hu]. now exists kp. }
    apply Hk. now exists None.
  - revert IH. apply create_resources_keeps.
    all: try (intros v u [kp Hu]; now exists kp).
    intros k u _. now exists (Some k).
  - exact IH.
Qed.

(** A User that its construction returned is among the [salvageable]
    states. *)
Lemma returned_user_salvageable (name : string) (t : Tenant) (role : string)
    (s : State W) :
  snd (__init__ handle name t role s) = Ok tt ->
  salvageable handle (fst (__init__ handle name t role s)).
Proof.
  intros Hok.
  destruct (_get_user handle (entering name t s)) as [s1 [admin|e]] eqn:E.
  - exact (after_construction handle name t role s E).
  - rewrite init_run, E in Hok. discriminate.
Qed.

(** C7. On every partially constructed User -- the construction
    returned, which leaves the key pair [None] and the router list empty,
    and [create_resources] then ran any number of times, each to its end
    or to a failure at any point, so with any part of the clients, the key
    pair and the routers in place -- [delete_resources] returns: it has no
    error of its own, provided the collaborators carry out the removals it
    asks for on the resources the object holds.  The statement is over
    [salvageable], which holds of these states
    ([returned_user_salvageable], [after_create_resources]) and also of
    the object of a construction that raised after [_get_user] had
    returned. *)
Theorem delete_resources_on_partial_user (s : State W) :
  salvageable handle s ->
  teardown_calls_succeed handle (self s) ->
  snd (delete_resources handle s) = Ok tt.
Proof.
  intros Hs Hcalls.
  destruct (key_pair_bound_salvageable Hs) as [kp Hkp].
  exact (delete_resources_succeeds s Hkp Hcalls).
Qed.

(** *** The router loop *)

Lemma for_each_app A (l1 l2 : list A) (body : A -> M W unit) (s : State W) :
  for_each (l1 ++ l2) body s =
  match for_each l1 body s with
  | (s1, Ok _) => for_each l2 body s1
  | (s1, Raise e) => (s1, Raise e)
  end.
Proof.
  revert s. induction l1 as [|x l1 IH]; intros s.
  - reflexivity.
  - change ((x :: l1) ++ l2) with (x :: (l1 ++ l2)). cbn [for_each].
    unfold bind. destruct (body x s) as [s1 [[]|e]]; [apply IH|reflexivity].
Qed.

(** One turn of the loop, by the answers of the three calls. *)
Lemma create_one_router_run (cfg : ScaleCfg) (ext : option Network)
    (k : nat) (s : State W) :
  create_one_router handle cfg ext k s =
  let owner := user_name (self s) in
  match handle (Router_new owner) (world s) with
  | (w1, Raise e) =>
      ({| self := self s; world := w1;
          trace := trace s ++ [Ev (Router_new owner)]; log := log s |},
       Raise e)
  | (w1, Ok r) =>
      let u := set_router_list (router_list (self s) ++ [r]) (self s) in
      let creating := create_router r (owner ++ "-R" ++ str k)%string ext in
      match handle creating w1 with
      | (w2, Raise e) =>
          ({| self := u; world := w2;
              trace := trace s ++ [Ev (Router_new owner); Ev creating];
              log := log s |}, Raise e)
      | (w2, Ok _) =>
          let (w3, o) := handle (create_network_resources r cfg) w2 in
          ({| self := u; world := w3;
              trace := trace s ++ router_calls owner cfg ext k r;
              log := log s |}, o)
      end
  end.
Proof.
  unfold create_one_router, router_calls. monad. fields.
  destruct (handle (Router_new _) (world s)) as [w1 [r|e]]; [|reflexivity].
  fields. destruct (handle (create_router _ _ _) w1) as [w2 [[]|e]]; fields.
  - destruct (handle (create_network_resources _ _) w2) as [w3 o].
    now rewrite <- !app_assoc.
  - now rewrite <- !app_assoc.
Qed.

(** A loop that returned has made one router per count, in the order of
    the counts, each by its three calls. *)
Lemma create_routers_returned (cfg : ScaleCfg) (ext : option Network)
    (counts : list nat) :
  forall s : State W,
    snd (create_routers handle cfg ext counts s) = Ok tt ->
    exists rs,
      List.length rs = List.length counts
      /\ self (fst (create_routers handle cfg ext counts s))
         = set_router_list (router_list (self s) ++ rs) (self s)
      /\ trace (fst (create_routers handle cfg ext counts s))
         = trace s
           ++ flat_map (fun p => router_calls (user_name (self s)) cfg ext
                                              (fst p) (snd p))
                       (combine counts rs).
Proof.
  unfold create_routers.
  induction counts as [|k counts IH]; intros s Hok; cbn [for_each] in *.
  - exists []. cbn. rewrite !app_nil_r. repeat split. now destruct s as [[]].
  - unfold bind in *. rewrite create_one_router_run in *. cbv zeta in *.
    destruct (handle (Router_new _) (world s)) as [w1 [r|e]]; [|discriminate].
    destruct (handle (create_router _ _ _) w1) as [w2 [[]|e]]; [|discriminate].
    destruct (handle (create_network_resources _ _) w2) as [w3 [[]|e]];
      [|discriminate].
    destruct (IH _ Hok) as (rs & Hlen & Hself & Ht).
    exists (r :: rs). cbn [List.length combine flat_map fst snd].
    rewrite Hself, Ht. fields.
    rewrite <- !app_assoc. repeat split. now rewrite Hlen.
Qed.

(** A construction, however it ends, leaves an empty router list. *)
Lemma init_leaves_no_router (name : string) (t : Tenant) (role : string)
    (s : State W) :
  router_list (self (fst (__init__ handle name t role s))) = [].
Proof.
  rewrite init_run.
  destruct (get_user_issues (entering name t s)) as (_ & _ & _ & Hself).
  destruct (_get_user handle (entering name t s)) as [s1 [admin|e]];
    cbn [fst] in Hself.
  - assert (Hk : keeps (fun u => router_list u = [])
                       (bind_role handle t role)).
    { unfold bind_role.
      repeat (apply keeps_bind; [auto with keeps|intros]).
      now apply keeps_update. }
    apply Hk. fields. now rewrite Hself.
  - fields. now rewrite Hself.
Qed.

(** *** The setup of [create_resources] *)

(** The setup creates no router and touches neither the name, the tenant
    nor the router list; it looks the external network up when and only
    when the configuration asks for it, and returns [None] otherwise. *)
Lemma create_resources_setup_run (s : State W) :
  let cfg := scale_cfg (kloud (tenant (self s))) in
  let out := create_resources_setup handle s in
  user_name (self (fst out)) = user_name (self s)
  /\ tenant (self (fst out)) = tenant (self s)
  /\ router_list (self (fst out)) = router_list (self s)
  /\ exists rest,
       trace (fst out) = trace s ++ rest
       /\ Forall (fun e => attached_to e = None) rest
       /\ count is_lookup rest <= 1
       /\ (needs_external cfg = false ->
           count is_lookup rest = 0
           /\ forall ext, snd out = Ok ext -> ext = None)
       /\ (needs_external cfg = true ->
           forall ext, snd out = Ok ext -> count is_lookup rest = 1).
Proof.
  cbv zeta.
  destruct (create_resources_setup handle s) as [s0 o] eqn:E.
  unfold create_resources_setup in E. monad in E. fields in E.
  destruct (needs_external (scale_cfg (kloud (tenant (self s))))) eqn:Hneed;
  destruct (truthy (public_key_file (scale_cfg (kloud (tenant (self s))))));
  repeat match type of E with
         | context [handle ?c ?w] =>
             destruct (handle c w) as [? [?|?]]; fields in E
         end.
  all: finish E; rewrite <- ?app_assoc; cbn [app].
  all: repeat (split; [reflexivity|]).
  all: eexists; split; [reflexivity|].
  all: split; [repeat constructor|].
  all: cbn; repeat split; auto; try discriminate; try lia.
  all: try (intros ? [=]; auto).
Qed.

(** *** [create_resources] *)

Lemma create_resources_run (s : State W) :
  create_resources handle s =
  match create_resources_setup handle s with
  | (s0, Ok ext) =>
      create_routers handle (scale_cfg (kloud (tenant (self s0)))) ext
                     (router_counts (scale_cfg (kloud (tenant (self s0)))))
                     (announced s0)
  | (s0, Raise e) => (s0, Raise e)
  end.
Proof.
  unfold create_resources. unfold bind at 1.
  now destruct (create_resources_setup handle s) as [s0 [ext|e]].
Qed.

Lemma combine_seq_nth A (d : A) (rs : list A) :
  forall a,
    combine (seq a (List.length rs)) rs
    = map (fun k => (k, nth (k - a) rs d)) (seq a (List.length rs)).
Proof.
  induction rs as [|r rs IH]; intros a; cbn [List.length seq combine map].
  - reflexivity.
  - rewrite Nat.sub_diag. cbn [nth]. f_equal. rewrite IH.
    apply map_ext_in. intros k Hk. apply in_seq in Hk.
    replace (k - a) with (S (k - S a)) by lia. reflexivity.
Qed.

(** C2. When [create_resources] returns on an object whose router list
    was empty, as the construction leaves it, with a count
    [routers_per_user = N >= 0]: the router list has exactly [N] entries,
    and after the calls of the setup the calls issued are, for
    [k = 0, 1, ..., N-1] in this order, the construction of a router, its
    creation under the name [user_name + "-R" + str(k)] and the creation
    of its network resources, the router being the entry [k] of the
    list. *)
Theorem create_resources_routers (s : State W) :
  let cfg := scale_cfg (kloud (tenant (self s))) in
  let name := user_name (self s) in
  let final := create_resources handle s in
  let routers := router_list (self (fst final)) in
  router_list (self s) = [] ->
  (0 <= routers_per_user cfg)%Z ->
  snd final = Ok tt ->
  Z.of_nat (List.length routers) = routers_per_user cfg
  /\ exists ext,
       snd (create_resources_setup handle s) = Ok ext
       /\ trace (fst final)
          = trace (fst (create_resources_setup handle s))
            ++ flat_map
                 (fun k =>
                    [Ev (Router_new name);
                     Ev (create_router (nth k routers 0)
                                       (name ++ "-R" ++ str k)%string ext);
                     Ev (create_network_resources (nth k routers 0) cfg)])
                 (seq 0 (Z.to_nat (routers_per_user cfg))).
Proof.
  intros cfg name final routers Hnil Hpos Hok.
  subst routers final. revert Hok. rewrite create_resources_run.
  destruct (create_resources_setup_run s) as (Hname & Hten & Hrl & _).
  destruct (create_resources_setup handle s) as [s0 [ext|e]];
    [|discriminate].
  cbn [fst snd] in *. rewrite Hten. fold cfg. intros Hok.
  destruct (create_routers_returned _ _ _ _ Hok) as (rs & Hlen & Hself & Ht).
  rewrite Hself, Ht. fields. rewrite Hrl, Hnil, Hname. fold name.
  change ([] ++ rs) with rs.
  unfold router_counts in *. rewrite length_seq in Hlen.
  split; [rewrite Hlen; lia|].
  exists ext. split; [reflexivity|]. f_equal.
  rewrite <- Hlen, (@combine_seq_nth Router 0 rs 0).
  rewrite flat_map_concat_map, map_map.
  rewrite <- flat_map_concat_map. apply flat_map_ext. intros k.
  cbn [fst snd]. now rewrite Nat.sub_0_r.
Qed.

(** The router loop looks nothing up, and attaches every router it
    creates to the network it was given. *)
Lemma create_routers_issues (cfg : ScaleCfg) (ext : option Network)
    (counts : list nat) :
  issues (fun e => is_lookup e = false
                   /\ (attached_to e = None \/ attached_to e = Some ext))
         (create_routers handle cfg ext counts).
Proof.
  unfold create_routers. apply issues_for_each. intros k.
  unfold create_one_router.
  repeat (apply issues_bind; [auto with issues|intros]);
    try (apply issues_perform; cbn; auto).
Qed.

Lemma count_zero (p : event -> bool) (l : list event) :
  Forall (fun e => p e = false) l -> count p l = 0.
Proof.
  unfold count. induction 1 as [|e l He _ IH]; cbn; [reflexivity|].
  now rewrite He.
Qed.

(** C4. The calls [create_resources] issues hold at most one lookup of
    the external network.  When neither floating IPs are in use nor a
    redis server is configured they hold none, and every router created is
    attached to no external network; when one of the two is the case, a
    run whose setup went through -- and so every run that returns -- holds
    exactly one. *)
Theorem create_resources_external_lookup (s : State W) :
  let cfg := scale_cfg (kloud (tenant (self s))) in
  let final := create_resources handle s in
  exists issued,
    trace (fst final) = trace s ++ issued
    /\ count is_lookup issued <= 1
    /\ (use_floatingip cfg || has_key (redis_server cfg) = false ->
        count is_lookup issued = 0
        /\ Forall (fun e => attached_to e = None \/ attached_to e = Some None)
                  issued)
    /\ (use_floatingip cfg || has_key (redis_server cfg) = true ->
        (forall ext, snd (create_resources_setup handle s) = Ok ext ->
                     count is_lookup issued = 1)
        /\ (snd final = Ok tt -> count is_lookup issued = 1)).
Proof.
  intros cfg final. subst final. rewrite create_resources_run.
  destruct (create_resources_setup_run s)
    as (_ & Hten & _ & setup & Ht & Hatt & Hle & Hno & Hyes).
  fold cfg in Hno, Hyes. unfold needs_external in Hno, Hyes.
  destruct (create_resources_setup handle s) as [s0 [ext|e]];
    cbn [fst snd] in *.
  - destruct (@create_routers_issues (scale_cfg (kloud (tenant (self s0))))
                ext (router_counts (scale_cfg (kloud (tenant (self s0)))))
                (announced s0)) as (loop & Hl & Floop).
    exists (setup ++ loop). rewrite Hl. fields. rewrite Ht, <- app_assoc.
    assert (Hzero : count is_lookup loop = 0).
    { apply count_zero. eapply Forall_impl; [|exact Floop]. now intros e []. }
    rewrite count_app, Hzero, Nat.add_0_r.
    split; [reflexivity|]. split; [exact Hle|]. split.
    + intros Hneed. destruct (Hno Hneed) as (H0 & Hext).
      split; [exact H0|]. rewrite (Hext ext eq_refl) in Floop.
      apply Forall_app. split.
      * eapply Forall_impl; [|exact Hatt]. cbn. auto.
      * eapply Forall_impl; [|exact Floop]. now intros e0 [].
    + intros Hneed. split; intros; now apply (Hyes Hneed ext).
  - exists setup. split; [exact Ht|]. split; [exact Hle|]. split.
    + intros Hneed. destruct (Hno Hneed) as (H0 & _).
      split; [exact H0|]. eapply Forall_impl; [|exact Hatt]. cbn. auto.
    + intros _. split; [intros ? [=]|discriminate].
Qed.

(** C10. A router enters the router list before its creation is asked
    for.  Take a run of [create_resources] on an object with an empty
    router list in which the setup went through, the turns [0..k-1] of the
    loop went through, and at turn [k] the constructor returned the router
    [r] but its [create_router], or after it its
    [create_network_resources], raised [x].  Then [create_resources] ends
    in [x] with a router list of exactly [k+1] entries, the [k] routers of
    the earlier turns followed by [r]; and a later [delete_resources] on
    that object, the collaborators carrying out the removals, returns
    after asking for the deletion of each of the [k+1], [r] last. *)
Theorem create_resources_failing_router
    (s s0 : State W) (ext : option Network) (k : nat) (r : Router)
    (w1 : W) (x : exn) :
  let cfg := scale_cfg (kloud (tenant (self s))) in
  let name := user_name (self s) in
  let before := create_routers handle cfg ext (seq 0 k) (announced s0) in
  let creating := create_router r (name ++ "-R" ++ str k)%string ext in
  let final := create_resources handle s in
  router_list (self s) = [] ->
  create_resources_setup handle s = (s0, Ok ext) ->
  k < Z.to_nat (routers_per_user cfg) ->
  snd before = Ok tt ->
  handle (Router_new name) (world (fst before)) = (w1, Ok r) ->
  (snd (handle creating w1) = Raise x
   \/ (snd (handle creating w1) = Ok tt
       /\ snd (handle (create_network_resources r cfg)
                      (fst (handle creating w1))) = Raise x)) ->
  snd final = Raise x
  /\ List.length (router_list (self (fst before))) = k
  /\ router_list (self (fst final)) = router_list (self (fst before)) ++ [r]
  /\ List.length (router_list (self (fst final))) = k + 1
  /\ forall (s2 : State W) (kp : option KeyPair),
       self s2 = self (fst final) ->
       key_pair (self s2) = Bound kp ->
       teardown_calls_succeed handle (self s2) ->
       snd (delete_resources handle s2) = Ok tt
       /\ exists pre,
            trace (fst (delete_resources handle s2))
            = trace s2 ++ pre
              ++ map (fun q => Ev (delete_router q))
                     (router_list (self (fst before)) ++ [r])
              ++ [Ev (users_delete (ById (user_id (self s2))))].
Proof.
  intros cfg name before creating final Hnil Hsetup Hk Hbefore Hnew Hfail.
  pose proof (create_resources_setup_run s) as (Hname & Hten & Hrl & _).
  rewrite Hsetup in Hname, Hten, Hrl. cbn [fst] in Hname, Hten, Hrl.
  assert (Hfinal : final
            = create_routers handle cfg ext
                (seq 0 k ++ k :: seq (S k) (Z.to_nat (routers_per_user cfg) - S k))
                (announced s0)).
  { subst final. rewrite create_resources_run, Hsetup, Hten. fold cfg.
    unfold router_counts. f_equal.
    replace (Z.to_nat (routers_per_user cfg))
      with (k + S (Z.to_nat (routers_per_user cfg) - S k)) at 1 by lia.
    now rewrite seq_app. }
  destruct (create_routers_returned _ _ _ _ Hbefore) as (rs & Hlen & Hself & _).
  fold before in Hself. rewrite length_seq in Hlen.
  fields in Hself. rewrite Hrl, Hnil in Hself. change ([] ++ rs) with rs in Hself.
  assert (Hlist : router_list (self (fst before)) = rs) by now rewrite Hself.
  assert (Hown : user_name (self (fst before)) = name)
    by (rewrite Hself; exact Hname).
  assert (Hkeep : final
            = (fst (create_one_router handle cfg ext k (fst before)), Raise x)
          /\ router_list (self (fst final)) = rs ++ [r]).
  { rewrite Hfinal. unfold create_routers. rewrite for_each_app.
    fold (create_routers handle cfg ext (seq 0 k) (announced s0)).
    fold before. destruct before as [sb [[]|e]]; [|discriminate].
    cbn [fst snd] in *. cbn [for_each]. unfold bind.
    rewrite create_one_router_run. cbv zeta.
    rewrite Hown, Hnew. fold creating. rewrite Hlist.
    destruct (handle creating w1) as [w2 [[]|e]]; cbn [fst snd] in Hfail.
    - destruct Hfail as [Hf|[_ Hf]]; [discriminate|].
      destruct (handle (create_network_resources r cfg) w2) as [w3 o].
      cbn [snd] in Hf. subst o. now fields.
    - destruct Hfail as [Hf|[Hf _]]; [|discriminate].
      inversion Hf; subst e. now fields. }
  destruct Hkeep as (Hout & Hrouters).
  split; [now rewrite Hout|]. split; [now rewrite Hlist|].
  split; [now rewrite Hrouters, Hlist|].
  split; [rewrite Hrouters, length_app, Hlen; reflexivity|].
  intros s2 kp Hs2 Hkp Hcalls.
  pose proof (delete_resources_succeeds s2 Hkp Hcalls) as Hok.
  split; [exact Hok|].
  destruct (@delete_resources_plan s2 kp Hkp) as (_ & (issued & pending & Hp & Ht & Hall) & _).
  rewrite (Hall Hok), app_nil_r in Hp. rewrite Ht, <- Hp.
  unfold teardown_plan. rewrite Hs2, Hrouters, Hlist. eexists. reflexivity.
Qed.

(** *** The accessors *)

Lemma extend_loop_self (routers : list Router) :
  forall (acc : list Instance) (s : State W),
    self (fst (extend_loop handle routers acc s)) = self s.
Proof.
  induction routers as [|r rest IH]; intros acc s; cbn [extend_loop].
  - reflexivity.
  - unfold bind. unfold perform at 1.
    destruct (handle (router_get_all_instances r) (world s)) as [w1 [got|e]].
    + now rewrite IH.
    + reflexivity.
Qed.

Lemma extend_loop_reports (routers : list Router) :
  forall (acc : list Instance) (s : State W) (w' : W)
         (parts : list (list Instance)),
    reports handle (world s) routers w' parts ->
    extend_loop handle routers acc s =
    ({| self := self s; world := w';
        trace := trace s
                 ++ map (fun r => Ev (router_get_all_instances r)) routers;
        log := log s |},
     Ok (acc ++ List.concat parts)).
Proof.
  induction routers as [|r rest IH]; intros acc s w' parts Hrep;
    inversion Hrep; subst; cbn [extend_loop map List.concat].
  - rewrite !app_nil_r. now destruct s.
  - unfold bind. unfold perform at 1.
    match goal with H : handle _ _ = _ |- _ => rewrite H end.
    erewrite IH by (fields; eassumption). fields.
    now rewrite <- !app_assoc.
Qed.

Lemma extend_loop_returned (routers : list Router) :
  forall (acc v : list Instance) (s s' : State W),
    extend_loop handle routers acc s = (s', Ok v) ->
    exists parts,
      reports handle (world s) routers (world s') parts
      /\ v = acc ++ List.concat parts.
Proof.
  induction routers as [|r rest IH]; intros acc v s s' E;
    cbn [extend_loop] in E.
  - inversion E; subst. exists []. split; [constructor|].
    cbn. now rewrite app_nil_r.
  - unfold bind in E. unfold perform at 1 in E.
    destruct (handle (router_get_all_instances r) (world s))
      as [w1 [got|e]] eqn:Hr; [|discriminate].
    destruct (IH _ _ _ _ E) as (parts & Hrep & ->).
    exists (got :: parts). split.
    + econstructor; eassumption.
    + cbn [List.concat]. now rewrite app_assoc.
Qed.

(** C9. Neither accessor changes the object.  [get_first_network]
    answers [None] without any call when the router list is empty, and
    otherwise asks the first router, and only that one, for its first
    network and hands the answer on.  [get_all_instances] asks the routers
    in list order and returns the concatenation of their answers in that
    order, which is the empty list for no router; it returns whenever
    every router answers, and what it returns is always such a
    concatenation. *)
Theorem accessors_read_only (s : State W) :
  self (fst (get_first_network handle s)) = self s
  /\ self (fst (get_all_instances handle s)) = self s
  /\ (router_list (self s) = [] -> get_first_network handle s = (s, Ok None))
  /\ (forall router rest,
        router_list (self s) = router :: rest ->
        get_first_network handle s
        = perform handle (router_get_first_network router) s)
  /\ (router_list (self s) = [] -> get_all_instances handle s = (s, Ok []))
  /\ (forall w' parts,
        reports handle (world s) (router_list (self s)) w' parts ->
        snd (get_all_instances handle s) = Ok (List.concat parts)
        /\ trace (fst (get_all_instances handle s))
           = trace s ++ map (fun r => Ev (router_get_all_instances r))
                            (router_list (self s)))
  /\ (forall v,
        snd (get_all_instances handle s) = Ok v ->
        exists parts,
          reports handle (world s) (router_list (self s))
                  (world (fst (get_all_instances handle s))) parts
          /\ v = List.concat parts).
Proof.
  unfold get_first_network, get_all_instances.
  unfold bind, get.
  split; [|split; [|split; [|split; [|split; [|split]]]]].
  - destruct (router_list (self s)); [reflexivity|].
    unfold perform. now destruct (handle _ (world s)).
  - apply extend_loop_self.
  - now intros ->.
  - now intros router rest ->.
  - now intros ->.
  - intros w' parts Hrep.
    now rewrite (extend_loop_reports [] s Hrep).
  - intros v Hv.
    destruct (extend_loop handle (router_list (self s)) [] s)
      as [s' o] eqn:E.
    cbn [fst snd] in *. subst o.
    destruct (extend_loop_returned _ _ _ E) as (parts & Hrep & Hparts).
    exists parts. split; [exact Hrep|exact Hparts].
Qed.

(** *** Further properties of the construction *)

(** X1. The object carries an account id exactly when its construction
    returned: a construction that returns has stored the id of the account
    bound on [admin_user], with no key pair and no router; a construction
    that raises, at whatever point, leaves [user_id] at [None].  In both
    cases the name and the tenant are the ones given. *)
Theorem init_user_id (name : string) (t : Tenant) (role : string)
    (s : State W) :
  let final := __init__ handle name t role s in
  user_name (self (fst final)) = name
  /\ tenant (self (fst final)) = t
  /\ (snd final = Ok tt ->
      exists admin,
        admin_user (self (fst final)) = Bound admin
        /\ user_id (self (fst final)) = Some (ks_id admin)
        /\ key_pair (self (fst final)) = Bound None
        /\ router_list (self (fst final)) = [])
  /\ (forall e, snd final = Raise e -> user_id (self (fst final)) = None).
Proof.
  cbv zeta. rewrite init_run.
  destruct (get_user_issues (entering name t s)) as (_ & _ & _ & Hself).
  destruct (_get_user handle (entering name t s)) as [s1 [admin|e]];
    cbn [fst] in Hself.
  - rewrite bind_role_run with (admin := admin) by reflexivity.
    fields. destruct (handle roles_list (world s1)) as [w1 [roles0|e]].
    + cbv zeta.
      destruct (handle (roles_add_user_role _ _ _) w1) as [w2 [[]|e]];
        fields; rewrite Hself; fields.
      * split; [reflexivity|]. split; [reflexivity|].
        split; [|discriminate]. intros _. exists admin. auto.
      * split; [reflexivity|]. split; [reflexivity|].
        split; [discriminate|reflexivity].
    + fields. rewrite Hself. fields.
      split; [reflexivity|]. split; [reflexivity|].
      split; [discriminate|reflexivity].
  - fields. rewrite Hself. fields.
    split; [reflexivity|]. split; [reflexivity|].
    split; [discriminate|reflexivity].
Qed.

Lemma get_user_spares (s : State W) :
  exists issued,
    trace (fst (_get_user handle s)) = trace s ++ issued
    /\ Forall (spares (user_name (self s))) issued
    /\ count is_account_delete issued <= 1
    /\ (forall w1 account,
          handle (creation (self s)) (world s) = (w1, Ok account) ->
          count is_account_delete issued = 0).
Proof.
  destruct (_get_user handle s) as [s' r] eqn:E.
  destruct (handle (creation (self s)) (world s)) as [w1 [account|e]] eqn:H1.
  - rewrite (get_user_created _ H1) in E. finish E.
    eexists. split; [reflexivity|]. split; [repeat constructor|]. cbn. auto.
  - assert (Hcase : (forall m, e <> Conflict 409 m) \/ exists m, e = Conflict 409 m).
    { destruct e as [status m| | |]; try (left; discriminate).
      destruct (Z.eqb_spec status 409) as [->|Hs]; [right; now exists m|].
      left. intros m' E'. inversion E'. contradiction. }
    destruct Hcase as [Hne|[m ->]].
    + rewrite (get_user_propagates _ H1 Hne) in E. finish E.
      eexists. split; [reflexivity|]. split; [repeat constructor|].
      cbn. split; [auto|discriminate].
    + rewrite (get_user_conflict_run _ H1) in E.
      unfold bind at 1 2 in E. unfold perform at 1 in E. fields in E.
      destruct (handle users_list w1) as [w2 [l|e2]].
      * destruct (find (named (user_name (self s))) l) as [stale|] eqn:Hf.
        -- assert (Hname : ks_name stale = user_name (self s)).
           { apply find_some in Hf. destruct Hf as [_ Hf].
             now apply String.eqb_eq in Hf. }
           rewrite stale_user_loop_found with (stale := stale) in E by exact Hf.
           unfold bind at 1 2 in E. unfold LOG at 1 in E. fields in E.
           unfold perform at 1 in E. fields in E.
           destruct (handle (users_delete (ByResource stale)) w2) as [w3 [[]|e3]].
           ++ unfold bind at 1 in E. rewrite create_user_run in E. fields in E.
              destruct (handle (creation (self s)) w3) as [w4 [a|e4]].
              all: monad in E; finish E; rewrite <- !app_assoc; eexists.
              all: (split; [reflexivity|]).
              all: split; [repeat constructor; exact Hname|].
              all: cbn; split; [auto|discriminate].
           ++ finish E. rewrite <- !app_assoc; eexists.
              split; [reflexivity|].
              split; [repeat constructor; exact Hname|].
              cbn; split; [auto|discriminate].
        -- rewrite stale_user_loop_missing in E by exact Hf.
           monad in E. finish E. rewrite <- !app_assoc; eexists.
           split; [reflexivity|]. split; [repeat constructor|].
           cbn; split; [auto|discriminate].
      * finish E. rewrite <- !app_assoc; eexists.
        split; [reflexivity|]. split; [repeat constructor|].
        cbn; split; [auto|discriminate].
Qed.

(** X2. The only account a construction ever asks the identity service
    to delete is an account resource bearing the requested name: it
    deletes at most one, never one of another name and never by id, and
    none at all when its first create request is accepted -- in
    particular it does not take the account back when the role lookup or
    the role binding fails afterwards. *)
Theorem init_deletes_only_stale (name : string) (t : Tenant) (role : string)
    (s : State W) :
  let create := users_create name name "kloudbuster@localhost" (tenant_id t) in
  let final := __init__ handle name t role s in
  exists issued,
    trace (fst final) = trace s ++ issued
    /\ Forall (spares name) issued
    /\ count is_account_delete issued <= 1
    /\ (forall w1 account,
          handle create (world s) = (w1, Ok account) ->
          count is_account_delete issued = 0).
Proof.
  cbv zeta.
  destruct (get_user_spares (entering name t s))
    as (issued & Ht & Hsp & Hle & Hzero).
  fields in Ht. fields in Hsp. unfold creation in Hzero. fields in Hzero.
  rewrite init_run.
  destruct (_get_user handle (entering name t s)) as [s1 [admin|e]];
    cbn [fst] in Ht.
  - rewrite bind_role_run with (admin := admin) by reflexivity.
    fields. destruct (handle roles_list (world s1)) as [w1 [roles0|e]].
    + cbv zeta.
      destruct (handle (roles_add_user_role _ _ _) w1) as [w2 [[]|e]];
        fields; rewrite Ht, <- app_assoc;
        (eexists; split; [reflexivity|]).
      all: split; [apply Forall_app; split; [exact Hsp|]|].
      all: try (repeat (apply Forall_cons; [exact I|]); apply Forall_nil).
      all: rewrite count_app, Nat.add_0_r; split; [exact Hle|exact Hzero].
    + fields. rewrite Ht, <- app_assoc. eexists.
      split; [reflexivity|].
      split; [apply Forall_app; split; [exact Hsp|]|].
      * repeat (apply Forall_cons; [exact I|]); apply Forall_nil.
      * rewrite count_app, Nat.add_0_r. split; [exact Hle|exact Hzero].
  - fields. exists issued. auto.
Qed.

(** *** Further properties of [create_resources] *)

(** However the router loop ends, it has only appended to the router
    list, at most one router per count, and touched nothing else. *)
Lemma create_routers_appends (cfg : ScaleCfg) (ext : option Network)
    (counts : list nat) :
  forall s : State W,
    exists rs,
      List.length rs <= List.length counts
      /\ self (fst (create_routers handle cfg ext counts s))
         = set_router_list (router_list (self s) ++ rs) (self s).
Proof.
  unfold create_routers.
  induction counts as [|k counts IH]; intros s; cbn [for_each].
  - exists []. cbn. rewrite app_nil_r. split; [lia|]. now destruct s as [[]].
  - unfold bind. rewrite create_one_router_run. cbv zeta.
    destruct (handle (Router_new _) (world s)) as [w1 [r|e]].
    + destruct (handle (create_router _ _ _) w1) as [w2 [[]|e]].
      * destruct (handle (create_network_resources _ _) w2) as [w3 [[]|e]].
        -- match goal with |- context [for_each counts _ ?s1] =>
             destruct (IH s1) as (rs & Hlen & Hself) end.
           exists (r :: rs). rewrite Hself. fields.
           rewrite <- app_assoc. cbn [List.length app]. split; [lia|reflexivity].
        -- exists [r]. fields. cbn [List.length]. split; [lia|reflexivity].
      * exists [r]. fields. cbn [List.length]. split; [lia|reflexivity].
    + exists []. fields. rewrite app_nil_r. cbn [List.length].
      split; [lia|]. now destruct s as [[]].
Qed.

(** X3. [create_resources] never resets the router list.  Whatever its
    outcome, the routers the object held before are still there, in
    front, followed by at most [routers_per_user] new ones; when it
    returns, by exactly that many (none for a negative count).  Run a
    second time on the same object it therefore doubles the routers. *)
Theorem create_resources_appends (s : State W) :
  let cfg := scale_cfg (kloud (tenant (self s))) in
  let final := create_resources handle s in
  exists rs,
    router_list (self (fst final)) = router_list (self s) ++ rs
    /\ List.length rs <= Z.to_nat (routers_per_user cfg)
    /\ (snd final = Ok tt ->
        List.length rs = Z.to_nat (routers_per_user cfg)).
Proof.
  cbv zeta. rewrite create_resources_run.
  destruct (create_resources_setup_run s) as (_ & Hten & Hrl & _).
  destruct (create_resources_setup handle s) as [s0 [ext|e]];
    cbn [fst snd] in *.
  - rewrite Hten.
    set (cfg := scale_cfg (kloud (tenant (self s)))).
    destruct (@create_routers_appends cfg ext (router_counts cfg) (announced s0))
      as (rs & Hlen & Hself).
    unfold router_counts in Hlen. rewrite length_seq in Hlen.
    exists rs. rewrite Hself. fields. rewrite Hrl.
    split; [reflexivity|]. split; [exact Hlen|].
    intros Hok.
    destruct (create_routers_returned _ _ _ _ Hok) as (rs' & Hlen' & Hself' & _).
    rewrite Hself' in Hself. fields in Hself.
    apply (f_equal router_list) in Hself. fields in Hself.
    apply app_inv_head in Hself. subst rs'.
    unfold router_counts in Hlen'. now rewrite length_seq in Hlen'.
  - exists []. rewrite app_nil_r. cbn [List.length].
    split; [exact Hrl|]. split; [lia|discriminate].
Qed.

(** X4. A router whose constructor raises never enters the router list.
    In a run on an empty router list whose setup and turns [0..k-1] went
    through and in which [Router(self)] of turn [k] raises [x],
    [create_resources] ends in [x] right after that call with exactly the
    [k] routers of the earlier turns. *)
Theorem create_resources_failing_constructor
    (s s0 : State W) (ext : option Network) (k : nat) (w1 : W) (x : exn) :
  let cfg := scale_cfg (kloud (tenant (self s))) in
  let name := user_name (self s) in
  let before := create_routers handle cfg ext (seq 0 k) (announced s0) in
  let final := create_resources handle s in
  router_list (self s) = [] ->
  create_resources_setup handle s = (s0, Ok ext) ->
  k < Z.to_nat (routers_per_user cfg) ->
  snd before = Ok tt ->
  handle (Router_new name) (world (fst before)) = (w1, Raise x) ->
  snd final = Raise x
  /\ router_list (self (fst final)) = router_list (self (fst before))
  /\ List.length (router_list (self (fst final))) = k
  /\ trace (fst final) = trace (fst before) ++ [Ev (Router_new name)].
Proof.
  intros cfg name before final Hnil Hsetup Hk Hbefore Hnew.
  pose proof (create_resources_setup_run s) as (Hname & Hten & Hrl & _).
  rewrite Hsetup in Hname, Hten, Hrl. cbn [fst] in Hname, Hten, Hrl.
  assert (Hfinal : final
            = create_routers handle cfg ext
                (seq 0 k ++ k :: seq (S k) (Z.to_nat (routers_per_user cfg) - S k))
                (announced s0)).
  { subst final. rewrite create_resources_run, Hsetup, Hten. fold cfg.
    unfold router_counts. f_equal.
    replace (Z.to_nat (routers_per_user cfg))
      with (k + S (Z.to_nat (routers_per_user cfg) - S k)) at 1 by lia.
    now rewrite seq_app. }
  destruct (create_routers_returned _ _ _ _ Hbefore) as (rs & Hlen & Hself & _).
  fold before in Hself. rewrite length_seq in Hlen.
  fields in Hself. rewrite Hrl, Hnil in Hself. change ([] ++ rs) with rs in Hself.
  assert (Hlist : router_list (self (fst before)) = rs) by now rewrite Hself.
  assert (Hown : user_name (self (fst before)) = name)
    by (rewrite Hself; exact Hname).
  rewrite Hfinal. unfold create_routers. rewrite for_each_app.
  fold (create_routers handle cfg ext (seq 0 k) (announced s0)).
  fold before. destruct before as [sb [[]|e]]; [|discriminate].
  cbn [fst snd] in *. cbn [for_each]. unfold bind.
  rewrite create_one_router_run. cbv zeta.
  rewrite Hown, Hnew. fields. rewrite Hlist. auto.
Qed.

(** The router loop issues router calls only. *)
Lemma create_routers_issues_router_calls (cfg : ScaleCfg)
    (ext : option Network) (counts : list nat) :
  issues (fun e => is_router_call e = true)
         (create_routers handle cfg ext counts).
Proof.
  unfold create_routers. apply issues_for_each. intros k.
  unfold create_one_router.
  repeat first
    [ apply issues_perform; reflexivity
    | apply issues_update
    | apply issues_get
    | apply issues_bind; [|intros] ].
Qed.

(** The setup creates no router and leaves the identity service alone. *)
Lemma create_resources_setup_issues :
  issues (fun e => is_router_call e = false /\ is_identity_call e = false)
         (create_resources_setup handle).
Proof.
  unfold create_resources_setup.
  repeat first
    [ apply issues_bind; [|intros]
    | match goal with |- issues _ (if ?b then _ else _) => destruct b end
    | apply issues_perform; cbn; now auto
    | solve [auto with issues] ].
Qed.

Lemma get_user_issues_identity :
  issues (fun e => is_identity_call e = true) (_get_user handle).
Proof.
  assert (Hc : issues (fun e => is_identity_call e = true)
                      (_create_user handle))
    by (apply create_user_issues; reflexivity).
  assert (Hl : forall l, issues (fun e => is_identity_call e = true)
                                (stale_user_loop handle l)).
  { induction l as [|user rest IH]; cbn [stale_user_loop]; auto with issues.
    apply issues_bind; [auto with issues|intros name].
    destruct (String.eqb (ks_name user) name); [|exact IH].
    apply issues_bind; [auto with issues|intros _].
    apply issues_bind; [now apply issues_perform|intros _].
    apply issues_bind; [exact Hc|auto with issues]. }
  unfold _get_user.
  apply issues_bind.
  - apply issues_try_except.
    + apply issues_bind; [exact Hc|auto with issues].
    + intros [status m| | |]; auto with issues.
      destruct (negb (status =? 409)%Z); auto with issues.
      apply issues_bind; [auto with issues|intros name].
      apply issues_bind; [auto with issues|intros _].
      apply issues_bind; [now apply issues_perform|exact Hl].
  - intros [user|]; auto with issues.
Qed.

(** X5. The two halves of provisioning go to different services.  Every
    call of a construction is a call to the identity service; no call of
    [create_resources] is: whatever happens it creates, lists or deletes
    no account and binds no role. *)
Theorem services_are_separate (name : string) (t : Tenant) (role : string) :
  issues (fun e => is_identity_call e = true) (__init__ handle name t role)
  /\ issues (fun e => is_identity_call e = false) (create_resources handle).
Proof.
  split.
  - unfold __init__, bind_role.
    repeat first
      [ apply get_user_issues_identity
      | apply issues_perform; reflexivity
      | apply issues_update
      | apply issues_getattr
      | apply issues_bind; [|intros] ].
  - unfold create_resources.
    apply issues_bind.
    + eapply issues_weaken; [|apply create_resources_setup_issues].
      now intros e [_ He].
    + intros ext.
      apply issues_bind; [apply issues_get|intros n].
      apply issues_bind; [apply issues_LOG|intros _].
      apply issues_bind; [apply issues_get|intros t0].
      eapply issues_weaken; [|apply create_routers_issues_router_calls].
      intros [R c]. now destruct c.
Qed.

(** X6. A failure before the router loop costs no router.  When the
    setup of [create_resources] raises -- a client constructor, the key
    pair or the lookup of the external network -- [create_resources] ends
    there with the same exception, the router list is as it was, and no
    router call has been issued. *)
Theorem create_resources_setup_failure (s : State W) (e : exn) :
  snd (create_resources_setup handle s) = Raise e ->
  create_resources handle s
    = (fst (create_resources_setup handle s), Raise e)
  /\ router_list (self (fst (create_resources handle s)))
     = router_list (self s)
  /\ exists issued,
       trace (fst (create_resources handle s)) = trace s ++ issued
       /\ count is_router_call issued = 0.
Proof.
  intros Hfail. rewrite create_resources_run.
  destruct (create_resources_setup_run s) as (_ & _ & Hrl & _).
  destruct (create_resources_setup_issues s) as (issued & Ht & Hno).
  destruct (create_resources_setup handle s) as [s0 [ext|e0]];
    cbn [fst snd] in *; [discriminate|].
  inversion Hfail; subst e0.
  split; [reflexivity|]. split; [exact Hrl|].
  exists issued. split; [exact Ht|].
  apply count_zero. eapply Forall_impl; [|exact Hno]. now intros a [Ha _].
Qed.

(** *** The key pair *)

Lemma router_call_not_keypair (e : event) :
  is_router_call e = true -> is_keypair_call e = false.
Proof. destruct e as [R c]. now destruct c. Qed.

(** X7. Without a public key file -- the option absent, [None] or the
    empty string -- [create_resources] has nothing to do with key pairs:
    whatever its outcome, [key_pair] and [key_name] are what they were
    and no key pair call has been issued. *)
Theorem create_resources_without_key (s : State W) :
  let cfg := scale_cfg (kloud (tenant (self s))) in
  let final := create_resources handle s in
  truthy (public_key_file cfg) = false ->
  key_pair (self (fst final)) = key_pair (self s)
  /\ key_name (self (fst final)) = key_name (self s)
  /\ exists issued,
       trace (fst final) = trace s ++ issued
       /\ count is_keypair_call issued = 0.
Proof.
  intros cfg final Hkey. subst final.
  assert (Hsetup :
    key_pair (self (fst (create_resources_setup handle s))) = key_pair (self s)
    /\ key_name (self (fst (create_resources_setup handle s))) = key_name (self s)
    /\ exists issued,
         trace (fst (create_resources_setup handle s)) = trace s ++ issued
         /\ count is_keypair_call issued = 0).
  { destruct (create_resources_setup handle s) as [s0 o] eqn:E.
    unfold create_resources_setup in E. monad in E. fields in E.
    fold cfg in E. rewrite Hkey in E.
    destruct (needs_external cfg);
    repeat match type of E with
           | context [handle ?c ?w] =>
               destruct (handle c w) as [? [?|?]]; fields in E
           end.
    all: finish E; rewrite <- ?app_assoc; cbn [app].
    all: split; [reflexivity|]; split; [reflexivity|].
    all: eexists; split; reflexivity. }
  rewrite create_resources_run.
  destruct Hsetup as (Hkp & Hkn & setup & Ht & Hzero).
  destruct (create_resources_setup handle s) as [s0 [ext|e]];
    cbn [fst snd] in *.
  - match goal with |- context [create_routers handle ?c ext ?l ?s1] =>
      destruct (@create_routers_appends c ext l s1) as (rs & _ & Hself);
      destruct (@create_routers_issues_router_calls c ext l s1)
        as (loop & Hl & Floop)
    end.
    rewrite Hself, Hl. fields. rewrite Ht, <- app_assoc.
    split; [exact Hkp|]. split; [exact Hkn|].
    exists (setup ++ loop). split; [reflexivity|].
    rewrite count_app, Hzero. apply count_zero.
    eapply Forall_impl; [|exact Floop].
    intros a Ha. now apply router_call_not_keypair.
  - split; [exact Hkp|]. split; [exact Hkn|]. now exists setup.
Qed.

(** With a key pair on the object, the teardown starts by asking for the
    removal of its public key. *)
Lemma delete_resources_removes_key_first (s : State W) (kp : KeyPair) :
  key_pair (self s) = Bound (Some kp) ->
  exists rest,
    trace (fst (delete_resources handle s))
    = trace s ++ Ev (remove_public_key kp) :: rest.
Proof.
  intros Hkp. unfold delete_resources.
  unfold bind at 1, get at 1. unfold bind at 1, LOG at 1.
  unfold bind at 1, getattr at 1. fields. rewrite Hkp.
  match goal with |- context [bind (perform handle ?c) ?k ?s1] =>
    destruct (@issues_after_perform any_call _ _ c k s1)
      as (rest & Ht & _) end.
  - intros _. apply issues_bind; [apply issues_get|intros routers].
    apply issues_bind.
    + apply issues_for_each. intros r. now apply issues_perform.
    + intros _. apply issues_bind; [apply issues_get|intros uid].
      now apply issues_perform.
  - exists rest. exact Ht.
Qed.

(** X8. With a public key file, once both clients and the [KeyPair]
    object have been made, the object holds them whatever follows: the
    clients on [neutron_client] and [nova_client], the key pair on
    [key_pair] under the name [user_name + "-K"]; the run starts with the
    four calls [neutron client; nova client; KeyPair(nova client);
    add_public_key(name-K, file)], the compute client being asked for with
    the user name as name and as key, the tenant name as project and
    version 2.  If the registration raises, [create_resources] ends in
    that exception with the key pair still attached and no router made,
    so a later [delete_resources] will ask for the removal of a key that
    was never registered. *)
Theorem create_resources_with_key
    (s : State W) (w1 w2 w3 : W)
    (nc : NeutronClient) (nv : NovaClient) (kp : KeyPair) :
  let t := tenant (self s) in
  let cfg := scale_cfg (kloud t) in
  let name := user_name (self s) in
  let neutron :=
    neutronclient_Client name name (auth_url (kloud t)) (tenant_name t) in
  let nova :=
    novaclient_Client name name (auth_url (kloud t)) (tenant_name t) 2 in
  let registering :=
    add_public_key kp (name ++ "-K")%string (public_key_file cfg) in
  let first_calls :=
    [Ev neutron; Ev nova; Ev (KeyPair_new (Some nv)); Ev registering] in
  let final := create_resources handle s in
  truthy (public_key_file cfg) = true ->
  handle neutron (world s) = (w1, Ok nc) ->
  handle nova w1 = (w2, Ok nv) ->
  handle (KeyPair_new (Some nv)) w2 = (w3, Ok kp) ->
  neutron_client (self (fst final)) = Some nc
  /\ nova_client (self (fst final)) = Some nv
  /\ key_pair (self (fst final)) = Bound (Some kp)
  /\ key_name (self (fst final)) = Bound (Some (name ++ "-K")%string)
  /\ (exists rest, trace (fst final) = trace s ++ first_calls ++ rest)
  /\ (forall w4 x,
        handle registering w3 = (w4, Raise x) ->
        snd final = Raise x
        /\ trace (fst final) = trace s ++ first_calls
        /\ router_list (self (fst final)) = router_list (self s)
        /\ forall s2,
             self s2 = self (fst final) ->
             exists rest,
               trace (fst (delete_resources handle s2))
               = trace s2 ++ Ev (remove_public_key kp) :: rest).
Proof.
  intros t cfg name neutron nova registering first_calls final
         Hkey Hn Hv Hk.
  subst final. rewrite create_resources_run.
  destruct (create_resources_setup handle s) as [s0 o] eqn:E.
  unfold create_resources_setup in E. monad in E. fields in E.
  fold t in E. fold cfg in E. fold name in E. fold neutron in E.
  rewrite Hn in E. fields in E. fold nova in E. rewrite Hv in E.
  fields in E. rewrite Hkey in E. fields in E. rewrite Hk in E.
  fields in E. fold registering in E.
  destruct (handle registering w3) as [w4 [[]|x]] eqn:Hreg; fields in E.
  - (* registered: lookup or not, then the loop *)
    assert (Hs0 : self s0
                  = set_key_name (Bound (Some (name ++ "-K")%string))
                      (set_key_pair (Bound (Some kp))
                         (set_nova_client (Some nv)
                            (set_neutron_client (Some nc) (self s))))
                  /\ exists more, trace s0 = trace s ++ first_calls ++ more).
    { destruct (needs_external cfg); fields in E.
      - destruct (handle (find_external_network (Some nc)) w4)
          as [w5 [ext|x]]; finish E; rewrite <- ?app_assoc;
          (split; [reflexivity|]); eexists; cbn [app]; reflexivity.
      - finish E. rewrite <- ?app_assoc. split; [reflexivity|].
        exists []. reflexivity. }
    destruct Hs0 as (Hs0 & more & Ht0).
    destruct o as [ext|x].
    + match goal with |- context [create_routers handle ?c ext ?l ?s1] =>
        destruct (@create_routers_appends c ext l s1) as (rs & _ & Hself);
        destruct (@create_routers_issues_router_calls c ext l s1)
          as (loop & Hl & _)
      end.
      rewrite Hself, Hl. fields. rewrite Hs0, Ht0. fields.
      repeat (split; [reflexivity|]).
      split; [exists (more ++ loop); now rewrite <- !app_assoc|].
      intros w4' x' [=].
    + cbn [fst snd]. rewrite Hs0, Ht0. fields.
      repeat (split; [reflexivity|]).
      split; [now exists more|]. intros w4' x' [=].
  - finish E. rewrite <- ?app_assoc. cbn [app].
    repeat (split; [reflexivity|]).
    split; [exists []; now rewrite app_nil_r|].
    intros w4' x' [=]; subst.
    repeat (split; [reflexivity|]).
    intros s2 Hs2.
    apply delete_resources_removes_key_first. now rewrite Hs2.
Qed.

(** *** The external network of the routers *)

(** X9. When the configuration asks for the external network and the
    setup went through, the value the routers are attached to is the
    answer of the lookup: the lookup is the last call of the setup, made
    with the network client this run has just stored, and every call the
    loop issues afterwards is a router call whose router, if it creates
    one, is attached to that answer. *)
Theorem create_resources_attaches_lookup
    (s s0 : State W) (ext : option Network) :
  let cfg := scale_cfg (kloud (tenant (self s))) in
  let final := create_resources handle s in
  use_floatingip cfg || has_key (redis_server cfg) = true ->
  create_resources_setup handle s = (s0, Ok ext) ->
  (exists nc w before,
     neutron_client (self s0) = Some nc
     /\ handle (find_external_network (Some nc)) w = (world s0, Ok ext)
     /\ trace s0 = before ++ [Ev (find_external_network (Some nc))])
  /\ exists issued,
       trace (fst final) = trace s0 ++ issued
       /\ Forall (fun e => is_router_call e = true) issued
       /\ Forall (fun e => attached_to e = None \/ attached_to e = Some ext)
                 issued.
Proof.
  intros cfg final Hneed Hsetup. split.
  - clear final. unfold create_resources_setup in Hsetup.
    monad in Hsetup. fields in Hsetup. fold cfg in Hsetup.
    unfold needs_external in Hsetup. rewrite Hneed in Hsetup.
    destruct (truthy (public_key_file cfg));
    repeat match type of Hsetup with
           | context [handle ?c ?w] =>
               let Hc := fresh "Hc" in
               destruct (handle c w) as [? [?|?]] eqn:Hc; fields in Hsetup
           end.
    all: try discriminate.
    all: inversion Hsetup; subst; fields.
    all: eexists _, _, _; split; [reflexivity|]; split; [eassumption|].
    all: reflexivity.
  - subst final. rewrite create_resources_run, Hsetup.
    match goal with |- context [create_routers handle ?c ext ?l ?s1] =>
      destruct (@create_routers_issues c ext l s1) as (loop & Hl & Fl);
      destruct (@create_routers_issues_router_calls c ext l s1)
        as (loop' & Hl' & Fl')
    end.
    rewrite Hl in Hl'. apply app_inv_head in Hl'. subst loop'.
    exists loop. rewrite Hl. fields. split; [reflexivity|].
    split; [exact Fl'|]. eapply Forall_impl; [|exact Fl]. now intros e [_ He].
Qed.

(** *** Making and unmaking *)

Lemma created_by_unattached (e : event) :
  attached_to e = None -> created_by e = [].
Proof. destruct e as [R c]. now destruct c. Qed.

Lemma flat_map_nil A B (f : A -> list B) (l : list A) :
  Forall (fun a => f a = []) l -> flat_map f l = [].
Proof. induction 1 as [|a l Ha _ IH]; cbn; [reflexivity|]. now rewrite Ha. Qed.

Lemma created_by_router_calls (owner : string) (cfg : ScaleCfg)
    (ext : option Network) (counts : list nat) :
  forall rs,
    List.length rs = List.length counts ->
    flat_map created_by
      (flat_map (fun p => router_calls owner cfg ext (fst p) (snd p))
                (combine counts rs))
    = rs.
Proof.
  induction counts as [|k counts IH]; intros [|r rs] Hlen;
    try discriminate; cbn; [reflexivity|].
  f_equal. apply IH. now inversion Hlen.
Qed.

Lemma deleted_by_teardown_plan (kp : option KeyPair) (u : User) :
  flat_map deleted_by (teardown_plan kp u) = router_list u
  /\ count is_account_delete (teardown_plan kp u) = 1.
Proof.
  unfold teardown_plan.
  assert (Hr : forall l,
            flat_map deleted_by
              (map (fun r => Ev (delete_router r)) l
               ++ [Ev (users_delete (ById (user_id u)))]) = l
            /\ count is_account_delete
                 (map (fun r => Ev (delete_router r)) l
                  ++ [Ev (users_delete (ById (user_id u)))]) = 1).
  { induction l as [|r l [IH1 IH2]]; cbn; [auto|].
    split; [now f_equal|exact IH2]. }
  destruct kp; cbn [app flat_map deleted_by]; apply Hr.
Qed.

(** X10. What [create_resources] made, [delete_resources] unmakes.  On
    an object with no router yet, as a construction leaves it, let
    [create_resources] return and the collaborators carry the removals
    out: then [delete_resources] returns, the routers it asks to delete
    are exactly the routers [create_resources] asked to create, in the
    order of their creation, and it deletes the account once. *)
Theorem create_then_delete (s : State W) :
  let made := create_resources handle s in
  let gone := delete_resources handle (fst made) in
  router_list (self s) = [] ->
  key_pair_bound (self s) ->
  snd made = Ok tt ->
  teardown_calls_succeed handle (self (fst made)) ->
  snd gone = Ok tt
  /\ exists making dropping,
       trace (fst made) = trace s ++ making
       /\ trace (fst gone) = trace (fst made) ++ dropping
       /\ flat_map created_by making = router_list (self (fst made))
       /\ flat_map deleted_by dropping = flat_map created_by making
       /\ count is_account_delete dropping = 1.
Proof.
  intros made gone Hnil Hbound Hok Hcalls.
  assert (Hkp : key_pair_bound (self (fst made))).
  { revert Hbound. apply create_resources_keeps.
    all: try (intros v u [kp Hu]; now exists kp).
    intros k u _. now exists (Some k). }
  destruct Hkp as [kp Hkp].
  pose proof (delete_resources_succeeds (fst made) Hkp Hcalls) as Hgone.
  fold gone in Hgone. split; [exact Hgone|].
  destruct (@delete_resources_plan (fst made) kp Hkp)
    as (_ & (issued & pending & Hp & Ht & Hall) & _).
  fold gone in Ht, Hall. rewrite (Hall Hgone), app_nil_r in Hp. subst issued.
  destruct (deleted_by_teardown_plan kp (self (fst made))) as (Hd & Hc).
  assert (Hmaking : exists making,
            trace (fst made) = trace s ++ making
            /\ flat_map created_by making = router_list (self (fst made))).
  { subst made gone. revert Hok. rewrite create_resources_run.
    destruct (create_resources_setup_run s)
      as (_ & _ & Hrl & setup & Hts & Hatt & _).
    destruct (create_resources_setup handle s) as [s0 [ext|e]];
      cbn [fst snd] in *; [|discriminate].
    intros Hok.
    destruct (create_routers_returned _ _ _ _ Hok) as (rs & Hlen & Hself & Htl).
    rewrite Hself, Htl. fields. rewrite Hrl, Hnil, Hts, <- app_assoc.
    eexists. split; [reflexivity|].
    rewrite flat_map_app, created_by_router_calls by exact Hlen.
    rewrite flat_map_nil; [reflexivity|].
    eapply Forall_impl; [|exact Hatt]. apply created_by_unattached. }
  destruct Hmaking as (making & Htm & Hcm).
  exists making, (teardown_plan kp (self (fst made))).
  split; [exact Htm|]. split; [exact Ht|]. split; [exact Hcm|].
  split; [now rewrite Hd, Hcm|exact Hc].
Qed.

(** *** Failures during the teardown and the accessors *)

Lemma for_each_removed (routers : list Router) :
  forall (s : State W) (w' : W),
    removed handle (world s) routers w' ->
    for_each routers (fun q => perform handle (delete_router q)) s
    = ({| self := self s; world := w';
          trace := trace s ++ map (fun q => Ev (delete_router q)) routers;
          log := log s |}, Ok tt).
Proof.
  induction routers as [|r rest IH]; intros s w' Hrem;
    inversion Hrem; subst; cbn [for_each map].
  - rewrite app_nil_r. now destruct s.
  - unfold bind. unfold perform at 1.
    match goal with H : handle _ _ = _ |- _ => rewrite H end.
    erewrite IH by (fields; eassumption). fields.
    now rewrite <- app_assoc.
Qed.

(** X11. The teardown stops at the first removal that fails.  On an
    object whose [key_pair] attribute is bound: if the removal of the
    public key raises, no router is deleted; if the key step went through
    and the routers in front of [r] were deleted but the deletion of [r]
    raises [x], then [delete_resources] ends in [x] right after that
    call.  In both cases the routers behind are never asked for, the
    account is not deleted, and the object still holds everything. *)
Theorem delete_resources_aborts (s : State W) (kp : option KeyPair) :
  key_pair (self s) = Bound kp ->
  let final := delete_resources handle s in
  (forall k w x,
     kp = Some k ->
     handle (remove_public_key k) (world s) = (w, Raise x) ->
     snd final = Raise x
     /\ trace (fst final) = trace s ++ [Ev (remove_public_key k)]
     /\ self (fst final) = self s)
  /\ (forall done r rest w0 w1 w2 x,
        router_list (self s) = done ++ r :: rest ->
        match kp with
        | Some k => handle (remove_public_key k) (world s) = (w0, Ok tt)
        | None => w0 = world s
        end ->
        removed handle w0 done w1 ->
        handle (delete_router r) w1 = (w2, Raise x) ->
        snd final = Raise x
        /\ trace (fst final)
           = trace s
             ++ match kp with
                | Some k => [Ev (remove_public_key k)]
                | None => []
                end
             ++ map (fun q => Ev (delete_router q)) (done ++ [r])
        /\ self (fst final) = self s).
Proof.
  intros Hkp final. subst final.
  destruct (delete_resources handle s) as [s' o] eqn:E.
  unfold delete_resources in E.
  unfold bind at 1, get at 1 in E. unfold bind at 1, LOG at 1 in E.
  unfold bind at 1, getattr at 1 in E. fields in E. rewrite Hkp in E.
  unfold bind at 1 in E. cbn [fst snd]. split.
  - intros k w x -> Hrm. unfold perform at 1 in E. fields in E.
    rewrite Hrm in E. now finish E.
  - intros done r rest w0 w1 w2 x Hlist Hkey Hrem Hdel.
    assert (Hloop : forall s1 : State W,
              self s1 = self s -> world s1 = w0 ->
              bind (get router_list)
                (fun routers =>
                   bind (for_each routers
                           (fun router => perform handle (delete_router router)))
                     (fun _ =>
                        bind (get user_id)
                          (fun uid => perform handle (users_delete (ById uid)))))
                s1
              = ({| self := self s1; world := w2;
                    trace := trace s1
                             ++ map (fun q => Ev (delete_router q)) (done ++ [r]);
                    log := log s1 |}, Raise x)).
    { intros s1 Hs1 Hw1. unfold bind at 1, get at 1.
      replace (router_list (self s1)) with (done ++ r :: rest)
        by (now rewrite Hs1).
      unfold bind at 1. rewrite for_each_app.
      rewrite (@for_each_removed done s1 w1) by (rewrite Hw1; exact Hrem).
      cbn [for_each]. unfold bind at 1. unfold perform at 1. fields.
      rewrite Hdel. fields. now rewrite map_app, app_assoc. }
    destruct kp as [k|].
    + unfold perform at 1 in E. fields in E. rewrite Hkey in E.
      rewrite Hloop in E by reflexivity. finish E.
      now rewrite <- app_assoc.
    + unfold ret at 1 in E. subst w0.
      rewrite Hloop in E by reflexivity. now finish E.
Qed.

Lemma extend_loop_app (done : list Router) :
  forall (l : list Router) (acc : list Instance) (s : State W) (w' : W)
         (parts : list (list Instance)),
    reports handle (world s) done w' parts ->
    extend_loop handle (done ++ l) acc s
    = extend_loop handle l (acc ++ List.concat parts)
        {| self := self s; world := w';
           trace := trace s
                    ++ map (fun q => Ev (router_get_all_instances q)) done;
           log := log s |}.
Proof.
  induction done as [|r done IH]; intros l acc s w' parts Hrep;
    inversion Hrep; subst.
  - cbn. rewrite !app_nil_r. now destruct s.
  - change ((r :: done) ++ l) with (r :: (done ++ l)).
    cbn [extend_loop map List.concat]. unfold bind. unfold perform at 1.
    match goal with H : handle _ _ = _ |- _ => rewrite H end.
    erewrite IH by (fields; eassumption). fields.
    now rewrite <- !app_assoc.
Qed.

(** X12. [get_all_instances] gives all or nothing.  When the routers in
    front of [r] have answered and [r] raises [x], it ends in [x] right
    after asking [r]: the routers behind are not asked, the answers
    gathered so far are dropped, and the object is unchanged. *)
Theorem get_all_instances_aborts
    (s : State W) (done rest : list Router) (r : Router) (w1 w2 : W)
    (parts : list (list Instance)) (x : exn) :
  router_list (self s) = done ++ r :: rest ->
  reports handle (world s) done w1 parts ->
  handle (router_get_all_instances r) w1 = (w2, Raise x) ->
  get_all_instances handle s
  = ({| self := self s; world := w2;
        trace := trace s
                 ++ map (fun q => Ev (router_get_all_instances q))
                        (done ++ [r]);
        log := log s |}, Raise x).
Proof.
  intros Hlist Hrep Hfail.
  unfold get_all_instances. unfold bind at 1, get at 1. rewrite Hlist.
  rewrite (extend_loop_app (r :: rest) [] s Hrep).
  cbn [extend_loop]. unfold bind. unfold perform at 1. fields.
  rewrite Hfail. now rewrite map_app, app_assoc.
Qed.

(** *** The names of the routers *)

Lemma str_inj (a b : nat) : str a = str b -> a = b.
Proof.
  unfold str. intros H.
  assert (Hnn : forall n, Nat.to_uint n <> Nil).
  { intros n Hn.
    pose proof (DecimalNat.Unsigned.to_of (Nat.to_uint n)) as Hto.
    rewrite DecimalNat.Unsigned.of_to, Hn in Hto.
    exact (DecimalFacts.unorm_nonnil Nil (eq_sym Hto)). }
  apply DecimalNat.Unsigned.to_uint_inj.
  pose proof (NilZero.usu (Nat.to_uint a) (Hnn a)) as Ha.
  pose proof (NilZero.usu (Nat.to_uint b) (Hnn b)) as Hb.
  rewrite H, Hb in Ha. now inversion Ha.
Qed.

Lemma append_cancel (p a b : string) :
  (p ++ a)%string = (p ++ b)%string -> a = b.
Proof.
  induction p as [|c p IH]; cbn; [easy|]. intros [=]. auto.
Qed.

Lemma router_name_inj (name : string) (a b : nat) :
  (name ++ "-R" ++ str a)%string = (name ++ "-R" ++ str b)%string -> a = b.
Proof.
  intros H. apply append_cancel in H. apply append_cancel in H.
  now apply str_inj.
Qed.

Lemma NoDup_map_injective A B (f : A -> B) (l : list A) :
  (forall a b, f a = f b -> a = b) -> NoDup l -> NoDup (map f l).
Proof.
  intros Hf. induction 1 as [|a l Ha _ IH]; cbn; constructor; [|exact IH].
  intros Hin. apply in_map_iff in Hin. destruct Hin as (b & Hb & Hin).
  apply Hf in Hb. now subst b.
Qed.

Lemma created_name_unattached (e : event) :
  attached_to e = None -> created_name e = [].
Proof. destruct e as [R c]. now destruct c. Qed.

Lemma created_name_router_calls (owner : string) (cfg : ScaleCfg)
    (ext : option Network) (counts : list nat) :
  forall rs,
    List.length rs = List.length counts ->
    flat_map created_name
      (flat_map (fun p => router_calls owner cfg ext (fst p) (snd p))
                (combine counts rs))
    = map (fun k => (owner ++ "-R" ++ str k)%string) counts.
Proof.
  induction counts as [|k counts IH]; intros [|r rs] Hlen;
    try discriminate; cbn; [reflexivity|].
  f_equal. apply IH. now inversion Hlen.
Qed.

(** X13. Within one run the router names do not collide.  The names a
    returning [create_resources] has created routers under are
    [user_name + "-R" + str(k)] for the counts [k] in order, one per
    count, and they are pairwise different, since the decimal numeral of a
    count determines it.  (They do not depend on the routers already
    held: a second run asks for the same names again.) *)
Theorem router_names_distinct (s : State W) :
  let cfg := scale_cfg (kloud (tenant (self s))) in
  let final := create_resources handle s in
  snd final = Ok tt ->
  exists issued,
    trace (fst final) = trace s ++ issued
    /\ flat_map created_name issued
       = map (fun k => (user_name (self s) ++ "-R" ++ str k)%string)
             (router_counts cfg)
    /\ NoDup (flat_map created_name issued).
Proof.
  intros cfg final. subst final. rewrite create_resources_run.
  destruct (create_resources_setup_run s)
    as (Hname & Hten & _ & setup & Hts & Hatt & _).
  destruct (create_resources_setup handle s) as [s0 [ext|e]];
    cbn [fst snd] in *; [|discriminate].
  rewrite Hten. fold cfg. intros Hok.
  destruct (create_routers_returned _ _ _ _ Hok) as (rs & Hlen & _ & Htl).
  rewrite Htl. fields. rewrite Hts, <- app_assoc, Hname.
  eexists. split; [reflexivity|].
  rewrite flat_map_app, created_name_router_calls by exact Hlen.
  rewrite flat_map_nil
    by (eapply Forall_impl; [|exact Hatt]; apply created_name_unattached).
  cbn [app]. split; [reflexivity|].
  apply NoDup_map_injective; [apply router_name_inj|].
  unfold router_counts. apply seq_NoDup.
Qed.

(** *** A construction that fails after the account was made *)

(** X14. The id is stored last (line 63), so a construction that made
    its account and then raised -- in the role listing or in the role
    binding -- leaves an object that knows the account on [admin_user]
    but has [user_id = None].  A [delete_resources] on that object issues
    a single call, the delete of the id [None]: the account that was made
    is never named for deletion. *)
Theorem init_failure_orphans_account
    (name : string) (t : Tenant) (role : string)
    (s : State W) (w1 : W) (account : KsUser) (x : exn) :
  let create := users_create name name "kloudbuster@localhost" (tenant_id t) in
  let final := __init__ handle name t role s in
  handle create (world s) = (w1, Ok account) ->
  snd final = Raise x ->
  admin_user (self (fst final)) = Bound account
  /\ user_id (self (fst final)) = None
  /\ count is_account_delete (trace (fst final))
     = count is_account_delete (trace s)
  /\ forall s2 : State W,
       self s2 = self (fst final) ->
       trace (fst (delete_resources handle s2))
       = trace s2 ++ [Ev (users_delete (ById None))].
Proof.
  intros create final H1 Hfail.
  assert (Hobj : admin_user (self (fst final)) = Bound account
                 /\ user_id (self (fst final)) = None
                 /\ key_pair (self (fst final)) = Bound None
                 /\ router_list (self (fst final)) = []
                 /\ count is_account_delete (trace (fst final))
                    = count is_account_delete (trace s)).
  { subst final. revert Hfail. rewrite init_run.
    rewrite (@get_user_created (entering name t s) w1 account H1).
    rewrite bind_role_run with (admin := account) by reflexivity.
    fields. destruct (handle roles_list w1) as [w2 [roles0|e]].
    - cbv zeta.
      destruct (handle (roles_add_user_role _ _ _) w2) as [w3 [[]|e]];
        fields; [discriminate|].
      intros _. repeat (split; [reflexivity|]).
      rewrite !count_app. cbn. lia.
    - fields. intros _. repeat (split; [reflexivity|]).
      rewrite !count_app. cbn. lia. }
  destruct Hobj as (Hadmin & Hid & Hkp & Hrl & Hcount).
  split; [exact Hadmin|]. split; [exact Hid|]. split; [exact Hcount|].
  intros s2 Hs2.
  destruct (@delete_resources_plan s2 None) as (_ & _ & Hone).
  { now rewrite Hs2. }
  rewrite Hone; [now rewrite Hs2, Hid|reflexivity|now rewrite Hs2].
Qed.

End Properties.

(** ** The statements at work on the test double *)

Lemma init_conflict_repair_witness :
  let create :=
    users_create "alice" "alice" "kloudbuster@localhost" "t-42" in
  let final := alice_on stale_cloud 2 in
  cloud create stale_cloud = (stale_cloud, Raise (Conflict 409 "Duplicate Entry"))
  /\ count is_create (trace (fst final)) <= 2
  /\ exists rest,
       trace (fst final)
       = [] ++ [Ev create; Ev users_list;
                Ev (users_delete (ByResource old_alice)); Ev create] ++ rest
       /\ count is_create rest = 0
       /\ forall w4 e',
            cloud create (with_accounts [] 7 stale_cloud) = (w4, Raise e') ->
            snd final = Raise e' /\ rest = [].
Proof.
  cbv zeta.
  split; [reflexivity|].
  destruct (@init_conflict_repair Cloud cloud "alice" (tenant_of (plain_cfg 2))
              "admin" (boot stale_cloud) stale_cloud
              (Conflict 409 "Duplicate Entry") eq_refl) as [_ H].
  destruct (H (ex_intro _ "Duplicate Entry" eq_refl)) as (_ & Hcount & Hrepair).
  split; [exact Hcount|].
  destruct (Hrepair stale_cloud [old_alice] old_alice eq_refl eq_refl)
    as [_ Hretry].
  exact (Hretry (with_accounts [] 7 stale_cloud) eq_refl).
Defined.

Lemma create_resources_routers_witness :
  let s := fst (alice_on empty_cloud 2) in
  let final := create_resources cloud s in
  router_list (self s) = []
  /\ (0 <= routers_per_user (scale_cfg (kloud (tenant (self s)))))%Z
  /\ snd final = Ok tt
  /\ Z.of_nat (List.length (router_list (self (fst final)))) = 2%Z
  /\ exists ext,
       snd (create_resources_setup cloud s) = Ok ext
       /\ trace (fst final)
          = trace (fst (create_resources_setup cloud s))
            ++ flat_map
                 (fun k =>
                    [Ev (Router_new "alice");
                     Ev (create_router
                           (nth k (router_list (self (fst final))) 0)
                           ("alice" ++ "-R" ++ str k)%string ext);
                     Ev (create_network_resources
                           (nth k (router_list (self (fst final))) 0)
                           (plain_cfg 2))])
                 [0; 1].
Proof.
  cbv zeta.
  assert (Hpos : (0 <= 2)%Z) by discriminate.
  split; [reflexivity|]. split; [exact Hpos|]. split; [reflexivity|].
  exact (@create_resources_routers Cloud cloud (fst (alice_on empty_cloud 2))
           eq_refl Hpos eq_refl).
Defined.

Lemma init_fresh_name_witness :
  let create :=
    users_create "alice" "alice" "kloudbuster@localhost" "t-42" in
  let account := {| ks_id := "id-0"; ks_name := "alice" |} in
  let binding := roles_add_user_role account (Some admin_role) "t-42" in
  let final := alice_on empty_cloud 2 in
  cloud create empty_cloud
    = (with_accounts [account] 1 empty_cloud, Ok account)
  /\ cloud roles_list (with_accounts [account] 1 empty_cloud)
     = (with_accounts [account] 1 empty_cloud, Ok [member_role; admin_role])
  /\ trace (fst final) = [] ++ [Ev create; Ev roles_list; Ev binding]
  /\ count is_create (trace (fst final)) = 0 + 1
  /\ count is_binding (trace (fst final)) = 0 + 1
  /\ forall w3,
       cloud binding (with_accounts [account] 1 empty_cloud) = (w3, Ok tt) ->
       snd final = Ok tt
       /\ user_id (self (fst final)) = Some "id-0"
       /\ user_name (self (fst final)) = "alice".
Proof.
  cbv zeta.
  split; [reflexivity|]. split; [reflexivity|].
  exact (@init_fresh_name Cloud cloud "alice" (tenant_of (plain_cfg 2)) "admin"
           (boot empty_cloud) _ _ _ _ eq_refl eq_refl).
Defined.

Lemma create_resources_external_lookup_witness :
  let s := fst (alice_on empty_cloud 2) in
  let final := create_resources cloud s in
  exists issued,
    trace (fst final) = trace s ++ issued
    /\ count is_lookup issued = 0
    /\ Forall (fun e => attached_to e = None \/ attached_to e = Some None)
              issued.
Proof.
  cbv zeta.
  destruct (@create_resources_external_lookup Cloud cloud
              (fst (alice_on empty_cloud 2)))
    as (issued & Ht & _ & Hno & _).
  exists issued. split; [exact Ht|]. exact (Hno eq_refl).
Defined.

Lemma init_role_lookup_witness :
  let account := {| ks_id := "id-0"; ks_name := "alice" |} in
  let s1 := fst (_get_user cloud
                   (entering "alice" alice_tenant (boot empty_cloud))) in
  let final :=
    __init__ cloud "alice" alice_tenant "ResellerAdmin" (boot empty_cloud) in
  _get_user cloud (entering "alice" alice_tenant (boot empty_cloud))
    = (s1, Ok account)
  /\ cloud roles_list (world s1) = (world s1, Ok [member_role; admin_role])
  /\ trace (fst final)
     = trace s1 ++ [Ev roles_list;
                    Ev (roles_add_user_role account None "t-42")]
  /\ snd final = Ok tt.
Proof.
  cbv zeta.
  split; [reflexivity|]. split; [reflexivity|].
  destruct (@init_role_lookup Cloud cloud "alice" alice_tenant "ResellerAdmin"
              (boot empty_cloud) _ _ _ _ eq_refl eq_refl)
    as (current_role & Ht & Hr & _ & Hnone).
  assert (Hcur : current_role = None).
  { apply Hnone. intros x [<-|[<-|[]]]; discriminate. }
  subst current_role. split; [exact Ht|exact Hr].
Defined.

Lemma delete_resources_order_witness :
  let s := fst (alice_on empty_cloud 0) in
  key_pair (self s) = Bound None
  /\ router_list (self s) = []
  /\ trace (fst (delete_resources cloud s))
     = trace s ++ [Ev (users_delete (ById (Some "id-0")))].
Proof.
  cbv zeta.
  split; [reflexivity|]. split; [reflexivity|].
  destruct (@delete_resources_order Cloud cloud (fst (alice_on empty_cloud 0))
              None eq_refl) as (_ & _ & _ & Hone).
  exact (Hone eq_refl eq_refl).
Defined.

Lemma teardown_calls_succeed_cloud (u : User) : teardown_calls_succeed cloud u.
Proof.
  repeat split; intros; eexists; reflexivity.
Defined.

Lemma delete_resources_on_partial_user_witness :
  let s := fst (create_resources cloud (fst (alice_on broken_cloud 3))) in
  salvageable cloud s
  /\ teardown_calls_succeed cloud (self s)
  /\ snd (create_resources cloud (fst (alice_on broken_cloud 3)))
     = Raise (CollaboratorError "NeutronClientException")
  /\ snd (delete_resources cloud s) = Ok tt.
Proof.
  cbv zeta.
  assert (Hs : salvageable cloud
                 (fst (create_resources cloud (fst (alice_on broken_cloud 3))))).
  { apply after_create_resources.
    exact (@returned_user_salvageable Cloud cloud "alice"
             (tenant_of (plain_cfg 3)) "admin" (boot broken_cloud) eq_refl). }
  split; [exact Hs|]. split; [apply teardown_calls_succeed_cloud|].
  split; [reflexivity|].
  exact (@delete_resources_on_partial_user Cloud cloud _ Hs
           (teardown_calls_succeed_cloud _)).
Defined.

(** Outside the states above: the object a construction leaves behind
    when [_get_user] itself raises.  Line 48 has not run, so it has no
    [key_pair] attribute, and [delete_resources] would raise on line 106
    before any call.  [User(...)] hands no such object to a caller: the
    exception of [__init__] is all the caller gets. *)
Lemma delete_resources_after_failed_get_user :
  let failed := alice_on down_cloud 2 in
  snd failed = Raise (CollaboratorError "ServiceUnavailable")
  /\ router_list (self (fst failed)) = []
  /\ key_pair (self (fst failed)) = Unset
  /\ teardown_calls_succeed cloud (self (fst failed))
  /\ snd (delete_resources cloud (fst failed))
     = Raise (AttributeError "key_pair")
  /\ trace (fst (delete_resources cloud (fst failed)))
     = trace (fst failed).
Proof.
  cbv zeta. repeat (split; [reflexivity|]).
  split; [apply teardown_calls_succeed_cloud|]. split; reflexivity.
Qed.

Lemma init_stale_account_missing_witness :
  let create :=
    users_create "alice" "alice" "kloudbuster@localhost" "t-42" in
  let final := alice_on shadow_cloud 2 in
  cloud create shadow_cloud
    = (shadow_cloud, Raise (Conflict 409 "Duplicate Entry"))
  /\ cloud users_list shadow_cloud = (shadow_cloud, Ok [])
  /\ find (named "alice") [] = None
  /\ snd final = Raise (Exception ("Cannot find stale user:" ++ "alice"))
  /\ trace (fst final) = [] ++ [Ev create; Ev users_list]
  /\ count is_create (trace (fst final)) = 0 + 1.
Proof.
  cbv zeta. do 3 (split; [reflexivity|]).
  exact (@init_stale_account_missing Cloud cloud "alice"
           (tenant_of (plain_cfg 2)) "admin" (boot shadow_cloud)
           _ _ _ _ eq_refl eq_refl eq_refl).
Defined.

Lemma accessors_read_only_witness :
  alice_ready = fst (create_resources cloud (fst (alice_on empty_cloud 2)))
  /\ router_list (self alice_ready) = [3; 4]
  /\ reports cloud (world alice_ready) [3; 4] (world alice_ready)
             [["vm-3-0"; "vm-3-1"]; ["vm-4-0"; "vm-4-1"]]
  /\ snd (get_all_instances cloud alice_ready)
     = Ok (List.concat [["vm-3-0"; "vm-3-1"]; ["vm-4-0"; "vm-4-1"]])
  /\ self (fst (get_all_instances cloud alice_ready)) = self alice_ready
  /\ get_first_network cloud alice_ready
     = perform cloud (router_get_first_network 3) alice_ready.
Proof.
  pose (w := world alice_ready).
  assert (Hrep : reports cloud w [3; 4] w
                   [["vm-3-0"; "vm-3-1"]; ["vm-4-0"; "vm-4-1"]]).
  { apply (@reports_cons Cloud cloud w 3 w ["vm-3-0"; "vm-3-1"] [4] w
             [["vm-4-0"; "vm-4-1"]] eq_refl).
    apply (@reports_cons Cloud cloud w 4 w ["vm-4-0"; "vm-4-1"] [] w
             [] eq_refl).
    apply reports_nil. }
  destruct (@accessors_read_only Cloud cloud alice_ready)
    as (_ & Hself & _ & Hfirst & _ & Hall & _).
  split; [vm_compute; reflexivity|]. split; [reflexivity|].
  split; [exact Hrep|].
  split; [exact (proj1 (Hall w _ Hrep))|].
  split; [exact Hself|]. exact (Hfirst 3 [4] eq_refl).
Defined.

Lemma create_resources_failing_router_witness :
  alice_stalled = fst (alice_on broken_cloud 3)
  /\ router_list (self alice_stalled) = []
  /\ create_resources_setup cloud alice_stalled
     = (alice_stalled_setup, Ok None)
  /\ snd (create_resources cloud alice_stalled)
     = Raise (CollaboratorError "NeutronClientException")
  /\ router_list (self (fst (create_resources cloud alice_stalled)))
     = [3] ++ [4]
  /\ List.length
       (router_list (self (fst (create_resources cloud alice_stalled))))
     = 1 + 1
  /\ snd (delete_resources cloud (fst (create_resources cloud alice_stalled)))
     = Ok tt.
Proof.
  pose (w1 := with_accounts [{| ks_id := "id-0"; ks_name := "alice" |}] 5
                            broken_cloud).
  pose proof (@create_resources_failing_router Cloud cloud
                alice_stalled alice_stalled_setup None 1 4 w1
                (CollaboratorError "NeutronClientException")) as H.
  cbv zeta in H.
  assert (Hsetup : create_resources_setup cloud alice_stalled
                   = (alice_stalled_setup, Ok None))
    by (vm_compute; reflexivity).
  lapply H; [clear H; intros H|reflexivity].
  lapply H; [clear H; intros H|exact Hsetup].
  lapply H; [clear H; intros H|vm_compute; repeat constructor].
  lapply H; [clear H; intros H|vm_compute; reflexivity].
  lapply H; [clear H; intros H|vm_compute; reflexivity].
  lapply H; [clear H; intros H|left; vm_compute; reflexivity].
  destruct H as (Hout & _ & Hlist & Hlen & Hdel).
  assert (Hrs : router_list (self alice_stalled_setup) ++ [3] = [3])
    by reflexivity.
  split; [vm_compute; reflexivity|]. split; [reflexivity|].
  split; [exact Hsetup|]. split; [exact Hout|].
  split; [vm_compute; reflexivity|]. split; [exact Hlen|].
  refine (proj1 (Hdel (fst (create_resources cloud alice_stalled)) None
                      eq_refl _ (teardown_calls_succeed_cloud _))).
  vm_compute; reflexivity.
Defined.

(** ** Runs on the test double *)

Example str_counts : (str 0, str 7, str 10, str 123) = ("0", "7", "10", "123").
Proof. reflexivity. Qed.

(** The scenario of the specification: "alice", two routers, no public
    key file, no floating IP, no redis server. *)
Example alice_two_routers :
  let built := alice_on empty_cloud 2 in
  let made := create_resources cloud (fst built) in
  snd built = Ok tt
  /\ snd made = Ok tt
  /\ router_list (self (fst made)) = [3; 4]
  /\ key_pair (self (fst made)) = Bound None
  /\ trace (fst made)
     = trace (fst built)
       ++ [Ev (neutronclient_Client "alice" "alice"
                 "http://keystone:5000/v2.0" "KBc-T0");
           Ev (novaclient_Client "alice" "alice"
                 "http://keystone:5000/v2.0" "KBc-T0" 2);
           Ev (Router_new "alice");
           Ev (create_router 3 "alice-R0" None);
           Ev (create_network_resources 3 (plain_cfg 2));
           Ev (Router_new "alice");
           Ev (create_router 4 "alice-R1" None);
           Ev (create_network_resources 4 (plain_cfg 2))].
Proof. cbv zeta. repeat split. Qed.

(** A stale account is deleted and the create repeated, once. *)
Example alice_over_stale_account :
  let built := alice_on stale_cloud 2 in
  snd built = Ok tt
  /\ user_id (self (fst built)) = Some "id-7"
  /\ trace (fst built)
     = [Ev (users_create "alice" "alice" "kloudbuster@localhost" "t-42");
        Ev users_list;
        Ev (users_delete (ByResource old_alice));
        Ev (users_create "alice" "alice" "kloudbuster@localhost" "t-42");
        Ev roles_list;
        Ev (roles_add_user_role {| ks_id := "id-7"; ks_name := "alice" |}
                                (Some admin_role) "t-42")].
Proof. cbv zeta. repeat split. Qed.

(** ** The further statements at work on the test double *)

Lemma create_resources_failing_constructor_witness :
  let final := create_resources (faulty quota) alice_three in
  router_list (self alice_three) = []
  /\ create_resources_setup (faulty quota) alice_three
     = (alice_three_setup, Ok None)
  /\ snd final = Raise (CollaboratorError "QuotaExceeded")
  /\ List.length (router_list (self (fst final))) = 1.
Proof.
  cbv zeta.
  pose proof (@create_resources_failing_constructor Cloud (faulty quota)
                alice_three alice_three_setup None 1 (cloud_at 4)
                (CollaboratorError "QuotaExceeded")) as H.
  cbv zeta in H.
  assert (Hsetup : create_resources_setup (faulty quota) alice_three
                   = (alice_three_setup, Ok None))
    by (vm_compute; reflexivity).
  lapply H; [clear H; intros H|reflexivity].
  lapply H; [clear H; intros H|exact Hsetup].
  lapply H; [clear H; intros H|vm_compute; repeat constructor].
  lapply H; [clear H; intros H|vm_compute; reflexivity].
  lapply H; [clear H; intros H|vm_compute; reflexivity].
  destruct H as (Hout & _ & Hlen & _).
  split; [reflexivity|]. split; [exact Hsetup|].
  split; [exact Hout|exact Hlen].
Defined.

Lemma create_resources_setup_failure_witness :
  snd (create_resources_setup (faulty no_registration) alice_keyed)
    = Raise (CollaboratorError "BadRequest")
  /\ router_list
       (self (fst (create_resources (faulty no_registration) alice_keyed)))
     = router_list (self alice_keyed)
  /\ exists issued,
       trace (fst (create_resources (faulty no_registration) alice_keyed))
       = trace alice_keyed ++ issued
       /\ count is_router_call issued = 0.
Proof.
  assert (Hfail : snd (create_resources_setup (faulty no_registration)
                                              alice_keyed)
                  = Raise (CollaboratorError "BadRequest"))
    by (vm_compute; reflexivity).
  split; [exact Hfail|].
  exact (proj2 (@create_resources_setup_failure Cloud
                  (faulty no_registration) alice_keyed _ Hfail)).
Defined.

Lemma create_resources_without_key_witness :
  truthy (public_key_file (scale_cfg (kloud (tenant (self alice_built)))))
    = false
  /\ key_pair (self (fst (create_resources cloud alice_built)))
     = key_pair (self alice_built)
  /\ key_name (self (fst (create_resources cloud alice_built)))
     = key_name (self alice_built)
  /\ exists issued,
       trace (fst (create_resources cloud alice_built))
       = trace alice_built ++ issued
       /\ count is_keypair_call issued = 0.
Proof.
  split; [reflexivity|].
  exact (@create_resources_without_key Cloud cloud alice_built eq_refl).
Defined.

Lemma create_resources_with_key_witness :
  let final := create_resources (faulty no_registration) alice_keyed in
  let registering :=
    add_public_key 3 "alice-K" (Some "/home/kb/.ssh/id_rsa.pub") in
  cloud (KeyPair_new (Some 2)) (cloud_at 3) = (cloud_at 4, Ok 3)
  /\ faulty no_registration registering (cloud_at 4)
     = (cloud_at 4, Raise (CollaboratorError "BadRequest"))
  /\ key_pair (self (fst final)) = Bound (Some 3)
  /\ key_name (self (fst final)) = Bound (Some "alice-K")
  /\ snd final = Raise (CollaboratorError "BadRequest")
  /\ router_list (self (fst final)) = router_list (self alice_keyed).
Proof.
  cbv zeta.
  pose proof (@create_resources_with_key Cloud (faulty no_registration)
                alice_keyed (cloud_at 2) (cloud_at 3) (cloud_at 4) 1 2 3)
    as H.
  cbv zeta in H.
  lapply H; [clear H; intros H|vm_compute; reflexivity].
  lapply H; [clear H; intros H|vm_compute; reflexivity].
  lapply H; [clear H; intros H|vm_compute; reflexivity].
  lapply H; [clear H; intros H|vm_compute; reflexivity].
  destruct H as (_ & _ & Hkp & Hkn & _ & Hreg).
  specialize (Hreg (cloud_at 4) (CollaboratorError "BadRequest")).
  lapply Hreg; [clear Hreg; intros Hreg|vm_compute; reflexivity].
  destruct Hreg as (Hout & _ & Hrl & _).
  split; [vm_compute; reflexivity|]. split; [vm_compute; reflexivity|].
  split; [exact Hkp|]. split; [exact Hkn|]. split; [exact Hout|exact Hrl].
Defined.

Lemma create_resources_attaches_lookup_witness :
  create_resources_setup cloud alice_keyed
    = (alice_keyed_setup, Ok (Some "ext-net"))
  /\ exists issued,
       trace (fst (create_resources cloud alice_keyed))
       = trace alice_keyed_setup ++ issued
       /\ Forall (fun e => is_router_call e = true) issued
       /\ Forall (fun e => attached_to e = None
                           \/ attached_to e = Some (Some "ext-net")) issued.
Proof.
  assert (Hsetup : create_resources_setup cloud alice_keyed
                   = (alice_keyed_setup, Ok (Some "ext-net")))
    by (vm_compute; reflexivity).
  split; [exact Hsetup|].
  exact (proj2 (@create_resources_attaches_lookup Cloud cloud alice_keyed
                  alice_keyed_setup (Some "ext-net") eq_refl Hsetup)).
Defined.

Lemma create_then_delete_witness :
  let made := create_resources cloud alice_keyed in
  let gone := delete_resources cloud (fst made) in
  router_list (self alice_keyed) = []
  /\ snd made = Ok tt
  /\ router_list (self (fst made)) = [4; 5]
  /\ snd gone = Ok tt
  /\ exists making dropping,
       trace (fst made) = trace alice_keyed ++ making
       /\ trace (fst gone) = trace (fst made) ++ dropping
       /\ flat_map created_by making = router_list (self (fst made))
       /\ flat_map deleted_by dropping = flat_map created_by making
       /\ count is_account_delete dropping = 1.
Proof.
  cbv zeta.
  assert (Hok : snd (create_resources cloud alice_keyed) = Ok tt)
    by (vm_compute; reflexivity).
  split; [reflexivity|]. split; [exact Hok|].
  split; [vm_compute; reflexivity|].
  exact (@create_then_delete Cloud cloud alice_keyed eq_refl
           (ex_intro _ None eq_refl) Hok (teardown_calls_succeed_cloud _)).
Defined.

Lemma delete_resources_aborts_witness :
  let final := delete_resources (faulty stuck_router) alice_ready in
  key_pair (self alice_ready) = Bound None
  /\ router_list (self alice_ready) = [] ++ 3 :: [4]
  /\ snd final = Raise (CollaboratorError "RouterInUse")
  /\ trace (fst final)
     = trace alice_ready ++ [] ++ map (fun q => Ev (delete_router q)) ([] ++ [3])
  /\ self (fst final) = self alice_ready.
Proof.
  cbv zeta.
  destruct (@delete_resources_aborts Cloud (faulty stuck_router) alice_ready
              None eq_refl) as [_ H].
  split; [reflexivity|]. split; [reflexivity|].
  exact (H [] 3 [4] (world alice_ready) (world alice_ready)
           (world alice_ready) (CollaboratorError "RouterInUse")
           eq_refl eq_refl (removed_nil _ _) eq_refl).
Defined.

Lemma get_all_instances_aborts_witness :
  router_list (self alice_ready) = [3] ++ 4 :: []
  /\ reports (faulty silent_router) (world alice_ready) [3]
             (world alice_ready) [["vm-3-0"; "vm-3-1"]]
  /\ get_all_instances (faulty silent_router) alice_ready
     = ({| self := self alice_ready; world := world alice_ready;
           trace := trace alice_ready
                    ++ map (fun q => Ev (router_get_all_instances q))
                           ([3] ++ [4]);
           log := log alice_ready |},
        Raise (CollaboratorError "NotFound")).
Proof.
  assert (Hrep : reports (faulty silent_router) (world alice_ready) [3]
                         (world alice_ready) [["vm-3-0"; "vm-3-1"]]).
  { apply (@reports_cons Cloud (faulty silent_router) (world alice_ready) 3
             (world alice_ready) ["vm-3-0"; "vm-3-1"] [] (world alice_ready)
             [] eq_refl).
    apply reports_nil. }
  split; [reflexivity|]. split; [exact Hrep|].
  exact (@get_all_instances_aborts Cloud (faulty silent_router) alice_ready
           [3] [] 4 (world alice_ready) (world alice_ready)
           [["vm-3-0"; "vm-3-1"]] (CollaboratorError "NotFound")
           eq_refl Hrep eq_refl).
Defined.

Lemma router_names_distinct_witness :
  snd (create_resources cloud alice_built) = Ok tt
  /\ exists issued,
       trace (fst (create_resources cloud alice_built))
       = trace alice_built ++ issued
       /\ flat_map created_name issued
          = map (fun k => ("alice" ++ "-R" ++ str k)%string) [0; 1]
       /\ NoDup (flat_map created_name issued).
Proof.
  assert (Hok : snd (create_resources cloud alice_built) = Ok tt)
    by (vm_compute; reflexivity).
  split; [exact Hok|].
  exact (@router_names_distinct Cloud cloud alice_built Hok).
Defined.

Lemma init_failure_orphans_account_witness :
  let create :=
    users_create "alice" "alice" "kloudbuster@localhost" "t-42" in
  let final :=
    __init__ (faulty no_binding) "alice" alice_tenant "admin"
             (boot empty_cloud) in
  faulty no_binding create empty_cloud = (cloud_at 1, Ok alice_account)
  /\ snd final = Raise (CollaboratorError "Forbidden")
  /\ admin_user (self (fst final)) = Bound alice_account
  /\ user_id (self (fst final)) = None
  /\ trace (fst (delete_resources (faulty no_binding) (fst final)))
     = trace (fst final) ++ [Ev (users_delete (ById None))].
Proof.
  cbv zeta.
  assert (Hfail : snd (__init__ (faulty no_binding) "alice" alice_tenant
                                "admin" (boot empty_cloud))
                  = Raise (CollaboratorError "Forbidden"))
    by (vm_compute; reflexivity).
  destruct (@init_failure_orphans_account Cloud (faulty no_binding) "alice"
              alice_tenant "admin" (boot empty_cloud) (cloud_at 1)
              alice_account (CollaboratorError "Forbidden") eq_refl Hfail)
    as (Hadmin & Hid & _ & Hdel).
  split; [reflexivity|]. split; [exact Hfail|]. split; [exact Hadmin|].
  split; [exact Hid|]. exact (Hdel _ eq_refl).
Defined.
